(** * MiniEtwLog: a shallow embedding of the ETW mini logger

    The repository holds three variants of the same implementation file:
    - [MiniEtwLog_h]: the implementation in src/Log/MiniEtwLog.h
      (third document of that file);
    - [part_000_a]: the first implementation in src/unnamed/part_000
      (the one whose [VerifyHResult] takes a [std::optional]);
    - [part_000_b]: the second implementation in src/unnamed/part_000.

    The Windows platform is an oracle: every API call is appended to a
    trace and answered by a function of the calls made so far.  C++
    exceptions, failed [assert]s, null dereferences and returns from a
    function declared [noreturn] are outcomes of a small monad.  Integers
    are [Z] with the C++ conversions written out; [std::size_t] is 64
    bits wide (x64 target), [ULONG] 32 bits.  The
    build keeps its assertions ([NDEBUG] is not defined).  The two message
    tables the verifier reads are lookups of the platform and leave no
    entry in the trace. *)

From Stdlib Require Import ZArith String Ascii List Lia Bool.
From stdpp Require Import base option gmap.
Import ListNotations.

#[local] Open Scope Z_scope.

(** ** Variants of the source *)

Inductive Variant : Type :=
| MiniEtwLog_h
| part_000_a
| part_000_b.

(** ** Integer conversions *)

(** [static_cast<ULONG>] of an unsigned value. *)
Definition to_ULONG (z : Z) : Z := z mod 2 ^ 32.

(** [static_cast<int>] of a [std::uint32_t]: two's complement. *)
Definition to_int (z : Z) : Z :=
  let u := z mod 2 ^ 32 in
  if u <? 2 ^ 31 then u else u - 2 ^ 32.

(** The SDK macro [SUCCEEDED(hr)], [((HRESULT)(hr)) >= 0]. *)
Definition SUCCEEDED (hr : Z) : bool := 0 <=? to_int hr.

(** [std::clamp<std::size_t>(v, lo, hi)], as the standard defines it. *)
Definition clamp (v lo hi : Z) : Z :=
  if v <? lo then lo else if hi <? v then hi else v.

(** ** Platform constants (Windows SDK headers) *)

Definition S_OK : Z := 0.
Definition ERROR_SUCCESS : Z := 0.
Definition ERROR_ALREADY_EXISTS : Z := 183.
Definition WNODE_FLAG_TRACED_GUID : Z := 0x00020000.
Definition EVENT_TRACE_FILE_MODE_SEQUENTIAL : Z := 0x00000001.
Definition EVENT_TRACE_PRIVATE_LOGGER_MODE : Z := 0x00000800.
Definition EVENT_TRACE_PRIVATE_IN_PROC : Z := 0x00020000.
Definition EVENT_TRACE_CONTROL_STOP : Z := 1.
Definition EVENT_CONTROL_CODE_DISABLE_PROVIDER : Z := 0.
Definition EVENT_CONTROL_CODE_ENABLE_PROVIDER : Z := 1.
Definition TRACE_LEVEL_INFORMATION : Z := 4.

(** [sizeof(EVENT_TRACE_PROPERTIES)] on x64. *)
Definition sizeof_EVENT_TRACE_PROPERTIES : Z := 120.

(** ** Outcomes of a C++ computation *)

(** [std::system_error{error, what_arg}]. *)
Record system_error : Type := {
  code : Z;
  what_arg : string
}.

Inductive Outcome (A : Type) : Type :=
| Returned (a : A)            (* normal completion *)
| Thrown (e : system_error)   (* a C++ exception propagates *)
| AssertFailed                (* [assert] fails: the process aborts *)
| NullDeref                   (* a null [unique_ptr] is dereferenced *)
| Undefined.                  (* a [noreturn] function returns: what
                                 follows is undefined *)

Arguments Returned {A} a.
Arguments Thrown {A} e.
Arguments AssertFailed {A}.
Arguments NullDeref {A}.
Arguments Undefined {A}.

(** ** Data *)

Definition GUID : Type := Z.

(** The zero filled character array of [n] bytes. *)
Definition zeros (n : nat) : list ascii := repeat zero n.

(** [std::copy(src.begin(), src.end(), std::begin(dst))] for a source that
    fits. *)
Definition copy_into (src dst : list ascii) : list ascii :=
  (src ++ skipn (List.length src) dst)%list.

Record WNODE_HEADER : Type := {
  Wnode_BufferSize : Z;
  Wnode_Flags : Z;
  Wnode_ClientContext : Z;
  Wnode_Guid : GUID
}.

(** The fields of [EVENT_TRACE_PROPERTIES] the source assigns; the others
    stay as [ZeroMemory] left them. *)
Record EVENT_TRACE_PROPERTIES : Type := {
  Wnode : WNODE_HEADER;
  BufferSize : Z;
  LogFileMode : Z;
  LogFileNameOffset : Z;
  LoggerNameOffset : Z
}.

Record EventTracePropertiesWithBuffers : Type := {
  Properties : EVENT_TRACE_PROPERTIES;
  SessionName : list ascii;   (* char SessionName[256] *)
  LogFilePath : list ascii    (* char LogFilePath[1024] *)
}.

Definition SessionName_extent : nat := 256.
Definition LogFilePath_extent : nat := 1024.

Definition offsetof_SessionName : Z := sizeof_EVENT_TRACE_PROPERTIES.
Definition offsetof_LogFilePath : Z :=
  sizeof_EVENT_TRACE_PROPERTIES + Z.of_nat SessionName_extent.
Definition sizeof_EventTracePropertiesWithBuffers : Z :=
  offsetof_LogFilePath + Z.of_nat LogFilePath_extent.

Record EVENT_DESCRIPTOR : Type := {
  Id : Z;
  Version : Z;
  Channel : Z;
  Level : Z;
  Opcode : Z;
  Task : Z;
  Keyword : Z
}.

Record EVENT_DATA_DESCRIPTOR : Type := {
  Ptr : Z;
  Size : Z;
  Reserved : Z
}.

(** [std::span<const std::byte>]: a pointer and a number of bytes. *)
Record span : Type := {
  span_data : Z;
  span_size : Z
}.

(** ** The platform *)

Inductive Call : Type :=
| CoCreateGuid
| create_directories (path : string)
| EventRegister (providerId : GUID)
| EventUnregister (regHandle : Z)
| StartTraceA (handle_in : Z) (sessionName : string)
    (props : EventTracePropertiesWithBuffers)
| ControlTraceA (handle : Z) (sessionName : option string)
    (props : EventTracePropertiesWithBuffers) (controlCode : Z)
| EnableTraceEx2 (handle : Z) (providerId : GUID) (controlCode level : Z)
    (matchAnyKeyword matchAllKeyword timeout : Z)
| EventWrite (regHandle : Z) (descriptor : EVENT_DESCRIPTOR) (count : Z)
    (userData : list EVENT_DATA_DESCRIPTOR).

(** What a call answers: its return value, the value its out parameter
    holds afterwards (the new GUID, registration handle or trace handle),
    and the control block as the platform left it, for the calls that take
    the block by address ([None]: untouched). *)
Record Response : Type := {
  status : Z;
  out : Z;
  props_out : option EventTracePropertiesWithBuffers
}.

Definition Trace : Type := list Call.

Record Platform : Type := {
  respond : Trace -> Call -> Response;
  (* [std::system_category().message(code)] *)
  system_category_message : Z -> string;
  (* [FormatMessageA(FORMAT_MESSAGE_FROM_SYSTEM, ..)]: the text, or [None]
     when the call returns 0 *)
  FormatMessageA : Z -> option string
}.

(** ** The monad of platform computations *)

Definition M (A : Type) : Type := Platform -> Trace -> Outcome A * Trace.

Definition ret {A} (a : A) : M A := fun _ t => (Returned a, t).

Definition bind {A B} (m : M A) (k : A -> M B) : M B :=
  fun P t =>
    match m P t with
    | (Returned a, t') => k a P t'
    | (Thrown e, t') => (Thrown e, t')
    | (AssertFailed, t') => (AssertFailed, t')
    | (NullDeref, t') => (NullDeref, t')
    | (Undefined, t') => (Undefined, t')
    end.

Notation "x <- m ;; k" := (bind m (fun x => k))
  (at level 100, m at next level, right associativity).
Notation "m ;;; k" := (bind m (fun _ => k))
  (at level 100, right associativity).

(** One API call: logged, answered by the platform. *)
Definition call (c : Call) : M Response :=
  fun P t => (Returned (respond P t c), (t ++ [c])%list).

Definition lift {A} (f : Platform -> Outcome A) : M A :=
  fun P t => (f P, t).

(** Stack unwinding: when [body] throws, the destructor [cleanup] of an
    already constructed member runs and the exception goes on.  A failed
    assertion, a null dereference or undefined behaviour unwinds
    nothing. *)
Definition unwinding {A} (cleanup : M unit) (body : M A) : M A :=
  fun P t =>
    match body P t with
    | (Thrown e, t') => (Thrown e, snd (cleanup P t'))
    | r => r
    end.

(** ** The ResultCode Verifier *)

(** The failure path shared by every [VerifyHResult]. *)
Definition make_system_error (P : Platform) (hresult : Z)
    (additionalInfo : string) : system_error :=
  let error := to_int hresult in
  if String.eqb (system_category_message P error)
                (system_category_message P 0)
  then match FormatMessageA P hresult with
       | Some errStr =>
           {| code := error; what_arg := String.append errStr additionalInfo |}
       | None => {| code := error; what_arg := additionalInfo |}
       end
  else {| code := error; what_arg := additionalInfo |}.

(** [VerifyHResult(std::uint32_t, std::string_view, std::uint32_t)] of
    src/Log/MiniEtwLog.h and of the second implementation of part_000. *)
Definition VerifyHResult_u32 (P : Platform) (hresult : Z)
    (additionalInfo : string) (expectedGoodResult : Z) : Outcome unit :=
  if negb (hresult =? expectedGoodResult)
  then Thrown (make_system_error P hresult additionalInfo)
  else Returned tt.

(** [__declspec(noreturn) VerifyHResult(std::uint32_t, std::string_view,
    std::optional<std::uint32_t>)] of the first implementation of
    part_000.  The function is declared [noreturn], there and in the
    header: when the condition is false it reaches its end and returns,
    which is undefined. *)
Definition VerifyHResult_opt (P : Platform) (hresult : Z)
    (additionalInfo : string) (expectedGoodResult : option Z)
    : Outcome unit :=
  if (match expectedGoodResult with
      | Some e => negb (hresult =? e)
      | None => false
      end) || negb (SUCCEEDED hresult)
  then Thrown (make_system_error P hresult additionalInfo)
  else Undefined.

(** The verifier as the rest of a variant calls it: always with an
    expected value. *)
Definition VerifyHResult (v : Variant) (hresult : Z)
    (additionalInfo : string) (expectedGoodResult : Z) : M unit :=
  lift (fun P =>
    match v with
    | part_000_a =>
        VerifyHResult_opt P hresult additionalInfo (Some expectedGoodResult)
    | _ => VerifyHResult_u32 P hresult additionalInfo expectedGoodResult
    end).

(** What follows a verifier call that did not throw: the value [a] goes
    on in src/Log/MiniEtwLog.h and in the second implementation of
    part_000; in the first implementation of part_000 the verifier has
    returned although declared [noreturn]. *)
Definition passed {A} (v : Variant) (a : A) : Outcome A :=
  match v with
  | part_000_a => Undefined
  | MiniEtwLog_h | part_000_b => Returned a
  end.

(** The [ULONG] (or [HRESULT]) a call returns, as the [std::uint32_t] the
    verifier receives. *)
Definition result (r : Response) : Z := to_ULONG (status r).

(** [assert(cond)] in a build that keeps assertions. *)
Definition assert (cond : bool) : M unit :=
  fun _ t => if cond then (Returned tt, t) else (AssertFailed, t).

(** ** Strings *)

(** The characters of a C string: those before the first terminator. *)
Fixpoint c_str (s : string) : string :=
  match s with
  | EmptyString => EmptyString
  | String c s' => if Ascii.eqb c zero then EmptyString else String c (c_str s')
  end.

Definition strlen (s : string) : nat := String.length (c_str s).

(** ** Identity Generator *)

Definition MakeGuid (v : Variant) : M GUID :=
  r <- call CoCreateGuid ;;
  VerifyHResult v (result r) "CoCreateGuid failed" S_OK ;;;
  ret (out r).

(** ** Control-Block Packer *)

Definition SetLogFilePath (self : EventTracePropertiesWithBuffers)
    (logFilePath : string) : Outcome EventTracePropertiesWithBuffers :=
  if (String.length logFilePath <=? LogFilePath_extent)%nat
  then Returned
         {| Properties := Properties self;
            SessionName := SessionName self;
            LogFilePath := copy_into (list_ascii_of_string logFilePath)
                                     (LogFilePath self) |}
  else AssertFailed.

(** The constructor of [EventTracePropertiesWithBuffers].  The assignment
    of [Wnode.Guid] and the two private-session mode flags exist in
    src/Log/MiniEtwLog.h only (the assignment is commented out in
    part_000, where the field keeps the zero of [ZeroMemory]). *)
Definition EventTracePropertiesWithBuffers_ctor (v : Variant)
    (sessionId : GUID) (bufferSize : Z) (logFilePath : string)
    : Outcome EventTracePropertiesWithBuffers :=
  let c_maxBufferSize := 16384 in
  SetLogFilePath
    {| Properties :=
         {| Wnode :=
              {| Wnode_BufferSize := sizeof_EventTracePropertiesWithBuffers;
                 Wnode_Flags := WNODE_FLAG_TRACED_GUID;
                 Wnode_ClientContext := 1;
                 Wnode_Guid := match v with
                               | MiniEtwLog_h => sessionId
                               | part_000_a | part_000_b => 0
                               end |};
            BufferSize := to_ULONG (clamp bufferSize 0 c_maxBufferSize);
            LogFileMode :=
              match v with
              | MiniEtwLog_h =>
                  Z.lor (Z.lor EVENT_TRACE_FILE_MODE_SEQUENTIAL
                               EVENT_TRACE_PRIVATE_LOGGER_MODE)
                        EVENT_TRACE_PRIVATE_IN_PROC
              | part_000_a | part_000_b => EVENT_TRACE_FILE_MODE_SEQUENTIAL
              end;
            LogFileNameOffset := offsetof_LogFilePath;
            LoggerNameOffset := offsetof_SessionName |};
       SessionName := zeros SessionName_extent;
       LogFilePath := zeros LogFilePath_extent |}
    logFilePath.

(** ** Source Enablement *)

Record EnabledProvider : Type := {
  SessionHandle : Z;
  EnabledProviderId : GUID
}.

Definition EnabledProvider_ctor (v : Variant) (sessionHandle : Z)
    (providerIdToEnable : GUID) : M EnabledProvider :=
  let self := {| SessionHandle := sessionHandle;
                 EnabledProviderId := providerIdToEnable |} in
  r <- call (EnableTraceEx2 (SessionHandle self) (EnabledProviderId self)
               EVENT_CONTROL_CODE_ENABLE_PROVIDER TRACE_LEVEL_INFORMATION
               0 0 0) ;;
  VerifyHResult v (result r) "EnableTraceEx2 - enabling provider"
    ERROR_SUCCESS ;;;
  ret self.

Definition EnabledProvider_dtor (self : EnabledProvider) : M unit :=
  _ <- call (EnableTraceEx2 (SessionHandle self) (EnabledProviderId self)
               EVENT_CONTROL_CODE_DISABLE_PROVIDER TRACE_LEVEL_INFORMATION
               0 0 0) ;;
  ret tt.

(** The call the constructor issues. *)
Definition enable_call (sessionHandle : Z) (providerId : GUID) : Call :=
  EnableTraceEx2 sessionHandle providerId EVENT_CONTROL_CODE_ENABLE_PROVIDER
    TRACE_LEVEL_INFORMATION 0 0 0.

(** ** Session *)

Record Session : Type := {
  Session_Handle : Z;
  m_properties : EventTracePropertiesWithBuffers
}.

(** The control block after a call that received its address. *)
Definition written (r : Response) (blk : EventTracePropertiesWithBuffers)
    : EventTracePropertiesWithBuffers :=
  match props_out r with
  | Some blk' => blk'
  | None => blk
  end.

Definition DestroySession (self : Session) (sessionName : option string)
    : M Session :=
  r <- call (ControlTraceA (Session_Handle self) sessionName
               (m_properties self) EVENT_TRACE_CONTROL_STOP) ;;
  ret {| Session_Handle := Session_Handle self;
         m_properties := written r (m_properties self) |}.

(** [StartTraceA(&Handle, sessionName, &m_properties.Properties)]: the
    session afterwards and the result. *)
Definition start (self : Session) (sessionName : string) : M (Session * Z) :=
  r <- call (StartTraceA (Session_Handle self) sessionName
               (m_properties self)) ;;
  ret ({| Session_Handle := out r;
          m_properties := written r (m_properties self) |}, result r).

Definition Session_ctor (v : Variant) (sessionId : GUID)
    (sessionName : string) (logFileName : string) (bufferSize : Z)
    : M Session :=
  props <- lift (fun _ =>
    EventTracePropertiesWithBuffers_ctor v sessionId bufferSize logFileName) ;;
  let self := {| Session_Handle := 0; m_properties := props |} in
  assert (strlen sessionName <=? SessionName_extent)%nat ;;;
  sr <- start self (c_str sessionName) ;;
  sr <- (if snd sr =? ERROR_ALREADY_EXISTS
         then self <- DestroySession (fst sr) (Some (c_str sessionName)) ;;
              start self (c_str sessionName)
         else ret sr) ;;
  VerifyHResult v (snd sr) "StartTrace" ERROR_SUCCESS ;;;
  ret (fst sr).

Definition Session_EnableProvider (v : Variant) (self : Session)
    (providerId : GUID) : M EnabledProvider :=
  EnabledProvider_ctor v (Session_Handle self) providerId.

Definition Session_dtor (self : Session) : M unit :=
  _ <- DestroySession self None ;;
  ret tt.

(** The calls of the constructor and their answers, named. *)
Section SessionStart.

Variables (v : Variant) (P : Platform) (t : Trace).
Variables (sessionName : string) (blk : EventTracePropertiesWithBuffers).

(** The first start call and its answer. *)
Definition start1 : Call := StartTraceA 0 (c_str sessionName) blk.
Definition answer1 : Response := respond P t start1.

(** The stop call that follows a name collision, and its answer. *)
Definition stop2 : Call :=
  ControlTraceA (out answer1) (Some (c_str sessionName))
    (written answer1 blk) EVENT_TRACE_CONTROL_STOP.
Definition answer2 : Response := respond P (t ++ [start1])%list stop2.

(** The retry and its answer. *)
Definition start3 : Call :=
  StartTraceA (out answer1) (c_str sessionName)
    (written answer2 (written answer1 blk)).
Definition answer3 : Response :=
  respond P (t ++ [start1; stop2])%list start3.

(** How the constructor ends after a start call answered [r] for the
    block [b]. *)
Definition verified (r : Response) (b : EventTracePropertiesWithBuffers)
    : Outcome Session :=
  if result r =? ERROR_SUCCESS
  then passed v {| Session_Handle := out r; m_properties := written r b |}
  else Thrown (make_system_error P (result r) "StartTrace").

(** The body of the constructor, once the block is packed. *)
Definition started : Outcome Session * Trace :=
  if (strlen sessionName <=? SessionName_extent)%nat
  then if result answer1 =? ERROR_ALREADY_EXISTS
       then (verified answer3 (written answer2 (written answer1 blk)),
             (t ++ [start1; stop2; start3])%list)
       else (verified answer1 blk, (t ++ [start1])%list)
  else (AssertFailed, t).

End SessionStart.

(** ** Source Registration *)

Record Provider : Type := {
  Provider_Handle : Z
}.

Definition Provider_ctor (v : Variant) (providerId : GUID) : M Provider :=
  r <- call (EventRegister providerId) ;;
  VerifyHResult v (result r) "EventRegister" ERROR_SUCCESS ;;;
  ret {| Provider_Handle := out r |}.

Definition Provider_dtor (self : Provider) : M unit :=
  _ <- call (EventUnregister (Provider_Handle self)) ;;
  ret tt.

(** [std::filesystem::create_directories] throws when the system reports
    an error; the text of that exception is the library's own. *)
Definition MakeDirectories (outputFolder : string) : M string :=
  r <- call (create_directories outputFolder) ;;
  if status r =? 0
  then ret outputFolder
  else (fun _ t => (Thrown {| code := status r;
                              what_arg := "create_directories" |}, t)).

(** ** Logger Facade *)

(** [MiniLog::Impl].  [m_sessionId] is a member in part_000 only. *)
Record Impl : Type := {
  m_sessionId : option GUID;
  m_providerId : GUID;
  m_provider : Provider;
  m_session : Session;
  m_enabledProvider : EnabledProvider
}.

(** The members are initialised in the order of their declaration; when
    one constructor throws, the members built so far are destroyed, last
    built first. *)
Definition Impl_ctor (v : Variant) (sessionName : string)
    (outputFolder : string) (bufferSize : Z) : M Impl :=
  match v with
  | MiniEtwLog_h =>
      providerId <- MakeGuid v ;;
      provider <- Provider_ctor v providerId ;;
      unwinding (Provider_dtor provider)
        (folder <- MakeDirectories outputFolder ;;
         session <- Session_ctor v providerId sessionName
                      (String.append folder "\log.etl") bufferSize ;;
         unwinding (Session_dtor session)
           (enabled <- Session_EnableProvider v session providerId ;;
            ret {| m_sessionId := None;
                   m_providerId := providerId;
                   m_provider := provider;
                   m_session := session;
                   m_enabledProvider := enabled |}))
  | part_000_a | part_000_b =>
      sessionId <- MakeGuid v ;;
      providerId <- MakeGuid v ;;
      session <- Session_ctor v sessionId sessionName
                   (String.append outputFolder "\log.etl") bufferSize ;;
      unwinding (Session_dtor session)
        (enabled <- Session_EnableProvider v session providerId ;;
         unwinding (EnabledProvider_dtor enabled)
           (provider <- Provider_ctor v providerId ;;
            ret {| m_sessionId := Some sessionId;
                   m_providerId := providerId;
                   m_provider := provider;
                   m_session := session;
                   m_enabledProvider := enabled |}))
  end.

(** The implicit destructor: members go in the reverse of the order of
    their declaration. *)
Definition Impl_dtor (v : Variant) (self : Impl) : M unit :=
  match v with
  | MiniEtwLog_h =>
      EnabledProvider_dtor (m_enabledProvider self) ;;;
      Session_dtor (m_session self) ;;;
      Provider_dtor (m_provider self)
  | part_000_a | part_000_b =>
      Provider_dtor (m_provider self) ;;;
      EnabledProvider_dtor (m_enabledProvider self) ;;;
      Session_dtor (m_session self)
  end.

Definition c_descriptor : EVENT_DESCRIPTOR :=
  {| Id := 0x1;
     Version := 0x1;
     Channel := 0x0;
     Level := 0x0;
     Opcode := 0x0;
     Task := 0x0;
     Keyword := 0x0 |}.

(** The SDK's inline [EventDataDescCreate]. *)
Definition EventDataDescCreate (DataPtr : Z) (DataSize : Z)
    : EVENT_DATA_DESCRIPTOR :=
  {| Ptr := DataPtr; Size := DataSize; Reserved := 0 |}.

Definition Write (v : Variant) (self : Impl) (message : span) : M unit :=
  let eventDataDescriptors :=
    [EventDataDescCreate (span_data message)
                         (to_ULONG (span_size message))] in
  r <- call (EventWrite (Provider_Handle (m_provider self)) c_descriptor 1
               eventDataDescriptors) ;;
  VerifyHResult v (result r) "EventWrite" ERROR_SUCCESS.

(** The one call [Write] issues. *)
Definition write_call (self : Impl) (message : span) : Call :=
  EventWrite (Provider_Handle (m_provider self)) c_descriptor 1
    [{| Ptr := span_data message; Size := to_ULONG (span_size message);
        Reserved := 0 |}].

(** [MiniLog]: [std::unique_ptr<Impl> m_impl], [None] for a null
    pointer. *)
Record MiniLog : Type := {
  m_impl : option Impl
}.

Definition MiniLog_ctor (v : Variant) (sessionName : string)
    (outputFolder : string) (bufferSize : Z) : M MiniLog :=
  impl <- Impl_ctor v sessionName outputFolder bufferSize ;;
  ret {| m_impl := Some impl |}.

(** [~MiniLog() = default]: the [unique_ptr] deletes what it owns. *)
Definition MiniLog_dtor (v : Variant) (self : MiniLog) : M unit :=
  match m_impl self with
  | Some impl => Impl_dtor v impl
  | None => ret tt
  end.

(** [operator()]: [m_impl->Write(message)]. *)
Definition MiniLog_call (v : Variant) (self : MiniLog) (message : span)
    : M unit :=
  match m_impl self with
  | Some impl => Write v impl message
  | None => fun _ t => (NullDeref, t)
  end.

(** The block of [main] in src/Test/MiniEtwLogTest.cpp that owns the
    logger: construct, emit once, leave the scope.  The destructor runs on
    the way out, also when the emit throws. *)
Definition logger_scope (v : Variant) (sessionName outputFolder : string)
    (bufferSize : Z) (message : span) : M unit :=
  log <- MiniLog_ctor v sessionName outputFolder bufferSize ;;
  unwinding (MiniLog_dtor v log) (MiniLog_call v log message) ;;;
  MiniLog_dtor v log.

(** The name of the function a call went to. *)
Definition call_name (c : Call) : string :=
  match c with
  | CoCreateGuid => "CoCreateGuid"
  | create_directories _ => "create_directories"
  | EventRegister _ => "EventRegister"
  | EventUnregister _ => "EventUnregister"
  | StartTraceA _ _ _ => "StartTraceA"
  | ControlTraceA _ _ _ _ => "ControlTraceA"
  | EnableTraceEx2 _ _ c _ _ _ _ =>
      if c =? EVENT_CONTROL_CODE_ENABLE_PROVIDER
      then "EnableTraceEx2(enable)" else "EnableTraceEx2(disable)"
  | EventWrite _ _ _ _ => "EventWrite"
  end.

(** *** Moves (src/Log/MiniEtwLog.h only)

    Objects live in a store keyed by address, so that the two operands of
    an assignment may be one object. *)

(** [MiniLog(MiniLog&&) noexcept = default]: the object under construction
    at [self] takes the pointer of [other], which is left null. *)
Definition MiniLog_move_ctor (objs : gmap nat MiniLog) (self other : nat)
    : gmap nat MiniLog :=
  match objs !! other with
  | Some o =>
      <[self := {| m_impl := m_impl o |}]>
        (<[other := {| m_impl := None |}]> objs)
  | None => objs
  end.

(** [operator=(MiniLog&&) noexcept = default]: the [unique_ptr] assignment
    [reset(u.release())]; [reset] stores the new pointer, then deletes the
    old one. *)
Definition MiniLog_move_assign (objs : gmap nat MiniLog) (self other : nat)
    : M (gmap nat MiniLog) :=
  match objs !! other with
  | Some o =>
      let released := <[other := {| m_impl := None |}]> objs in
      match released !! self with
      | Some s =>
          let objs' := <[self := {| m_impl := m_impl o |}]> released in
          match m_impl s with
          | Some old => Impl_dtor MiniEtwLog_h old ;;; ret objs'
          | None => ret objs'
          end
      | None => ret objs
      end
  | None => ret objs
  end.

(** ** Concrete platforms and inputs *)

Definition answer (st o : Z) : Response :=
  {| status := st; out := o; props_out := None |}.

Definition messages (c : Z) : string :=
  if c =? 0 then "The operation completed successfully."
  else if c =? 183 then "Cannot create a file when that file already exists."
  else "unknown error".

(** Every call succeeds; the n-th call hands out the value n. *)
Definition quiet_platform : Platform :=
  {| respond := fun t _ => answer 0 (Z.of_nat (S (List.length t)));
     system_category_message := messages;
     FormatMessageA := fun _ => None |}.

(** A platform on which the session name is always taken. *)
Definition crowded_platform : Platform :=
  {| respond := fun t c =>
       match c with
       | StartTraceA _ _ _ => answer ERROR_ALREADY_EXISTS 0
       | _ => answer 0 (Z.of_nat (S (List.length t)))
       end;
     system_category_message := messages;
     FormatMessageA := fun _ => None |}.


Definition long_name : string :=
  string_of_list_ascii (repeat "a"%char 257).

Definition sample_impl : Impl :=
  {| m_sessionId := Some 1;
     m_providerId := 2;
     m_provider := {| Provider_Handle := 7 |};
     m_session :=
       {| Session_Handle := 5;
          m_properties :=
            {| Properties :=
                 {| Wnode := {| Wnode_BufferSize := 1400;
                                Wnode_Flags := WNODE_FLAG_TRACED_GUID;
                                Wnode_ClientContext := 1;
                                Wnode_Guid := 0 |};
                    BufferSize := 4;
                    LogFileMode := EVENT_TRACE_FILE_MODE_SEQUENTIAL;
                    LogFileNameOffset := 376;
                    LoggerNameOffset := 120 |};
               SessionName := zeros SessionName_extent;
               LogFilePath := zeros LogFilePath_extent |} |};
     m_enabledProvider := {| SessionHandle := 5; EnabledProviderId := 2 |} |}.

(** The block the packer of src/Log/MiniEtwLog.h returns for the
    identity 9, 4 kilobytes and the path out\log.etl. *)
Definition sample_block : EventTracePropertiesWithBuffers :=
  {| Properties :=
       {| Wnode := {| Wnode_BufferSize := 1400;
                      Wnode_Flags := WNODE_FLAG_TRACED_GUID;
                      Wnode_ClientContext := 1;
                      Wnode_Guid := 9 |};
          BufferSize := 4;
          LogFileMode := 0x20801;
          LogFileNameOffset := 376;
          LoggerNameOffset := 120 |};
     SessionName := zeros SessionName_extent;
     LogFilePath := copy_into (list_ascii_of_string "out\log.etl")
                              (zeros LogFilePath_extent) |}.

(** Two facade objects: a live one at address 0, an empty one at 1. *)
Definition two_facades : gmap nat MiniLog :=
  <[0%nat := {| m_impl := Some sample_impl |}]>
    (<[1%nat := {| m_impl := None |}]> ∅).

(** ** The claims, as the specification words them *)

(** "The request clamped into the range [lo, hi]". *)
Definition clamped_into (lo hi x : Z) : Z := Z.max lo (Z.min x hi).

(** "Sequential file writing, private (process-local) session, in-process
    buffering". *)
Definition sequential_private_in_proc : Z :=
  Z.lor (Z.lor EVENT_TRACE_FILE_MODE_SEQUENTIAL
               EVENT_TRACE_PRIVATE_LOGGER_MODE)
        EVENT_TRACE_PRIVATE_IN_PROC.

Definition logging_mode_claimed (v : Variant) (sessionId : GUID)
    (bufferSize : Z) (logFilePath : string) : Prop :=
  forall blk,
    EventTracePropertiesWithBuffers_ctor v sessionId bufferSize logFilePath
      = Returned blk ->
    LogFileMode (Properties blk) = sequential_private_in_proc.

(** "Id, version, channel, severity level, opcode, task and keyword all
    zero". *)
Definition all_zero (d : EVENT_DESCRIPTOR) : Prop :=
  Id d = 0 /\ Version d = 0 /\ Channel d = 0 /\ Level d = 0 /\
  Opcode d = 0 /\ Task d = 0 /\ Keyword d = 0.

(** The three teardown calls of an implementation object. *)
Definition disable_call (self : Impl) : Call :=
  EnableTraceEx2 (SessionHandle (m_enabledProvider self))
    (EnabledProviderId (m_enabledProvider self))
    EVENT_CONTROL_CODE_DISABLE_PROVIDER TRACE_LEVEL_INFORMATION 0 0 0.

Definition stop_call (self : Impl) : Call :=
  ControlTraceA (Session_Handle (m_session self)) None
    (m_properties (m_session self)) EVENT_TRACE_CONTROL_STOP.

Definition unregister_call (self : Impl) : Call :=
  EventUnregister (Provider_Handle (m_provider self)).

(** "Disable the Enablement, then stop the Session, then unregister the
    Registration, and never raise". *)
Definition teardown_claimed (v : Variant) (P : Platform) (self : Impl)
    (t : Trace) : Prop :=
  MiniLog_dtor v {| m_impl := Some self |} P t =
    (Returned tt,
     (t ++ [disable_call self; stop_call self; unregister_call self])%list).

(** "One data block that points at the caller's bytes with their original
    length, one write call through the registration's handle". *)
Definition write_call_claimed (self : Impl) (message : span) : Call :=
  EventWrite (Provider_Handle (m_provider self)) c_descriptor 1
    [{| Ptr := span_data message; Size := span_size message;
        Reserved := 0 |}].

Definition emit_claimed (v : Variant) (P : Platform) (self : Impl)
    (message : span) (t : Trace) : Prop :=
  snd (Write v self message P t) =
    (t ++ [write_call_claimed self message])%list.



(** "The session name exceeds the 256 bytes reserved, or the log-file path
    the 1024 bytes reserved". *)
Definition oversized (sessionName outputFolder : string) : Prop :=
  (SessionName_extent < strlen sessionName)%nat \/
  (LogFilePath_extent
     < String.length (String.append outputFolder "\log.etl"))%nat.

(** "Fails as an assertion-level precondition violation before any
    platform call is made". *)
Definition fails_before_any_call (v : Variant) (P : Platform)
    (sessionName outputFolder : string) (bufferSize : Z) : Prop :=
  MiniLog_ctor v sessionName outputFolder bufferSize P [] = (AssertFailed, []).

(** The calls that set up or tear down an identity or a registration, as
    opposed to those that control a session or write to it. *)
Definition is_session_call (c : Call) : bool :=
  match c with
  | StartTraceA _ _ _ | ControlTraceA _ _ _ _
  | EnableTraceEx2 _ _ _ _ _ _ _ | EventWrite _ _ _ _ => true
  | CoCreateGuid | create_directories _
  | EventRegister _ | EventUnregister _ => false
  end.

(** The control block of the first start-session call of a trace. *)
Fixpoint first_StartTraceA (t : Trace)
    : option EventTracePropertiesWithBuffers :=
  match t with
  | [] => None
  | StartTraceA _ _ blk :: _ => Some blk
  | _ :: t' => first_StartTraceA t'
  end.

(** ** Further operations and notions *)

(** [GetProviderId] of part_000: [m_impl->GetProviderId()]. *)
Definition Impl_GetProviderId (self : Impl) : GUID := m_providerId self.

Definition MiniLog_GetProviderId (self : MiniLog) : Outcome GUID :=
  match m_impl self with
  | Some impl => Returned (Impl_GetProviderId impl)
  | None => NullDeref
  end.

(** The zero-terminated string a reader finds at the start of a character
    region. *)
Definition read_c_string (region : list ascii) : string :=
  c_str (string_of_list_ascii region).

(** A character other than the terminator. *)
Definition nonzero (c : ascii) : bool := negb (Ascii.eqb c zero).

(** A string without a terminator character inside. *)
Definition no_NUL (s : string) : bool :=
  forallb nonzero (list_ascii_of_string s).

(** A path that fills the path region. *)
Definition full_path : string := string_of_list_ascii (repeat "p"%char 1024).

(** *** Kinds of calls *)

Definition is_start (c : Call) : bool :=
  match c with
  | StartTraceA _ _ _ => true
  | _ => false
  end.

Definition is_stop (c : Call) : bool :=
  match c with
  | ControlTraceA _ _ _ controlCode => controlCode =? EVENT_TRACE_CONTROL_STOP
  | _ => false
  end.

Definition is_write (c : Call) : bool :=
  match c with
  | EventWrite _ _ _ _ => true
  | _ => false
  end.

(** How many calls of a trace are of a kind. *)
Definition count (kind : Call -> bool) (t : Trace) : nat :=
  List.length (List.filter kind t).

(** *** Accounting of platform resources

    What a trace leaves open on a platform: the registration handles,
    session handles and enablements that a call answered with success
    handed out and that no later call handed back.  A stop addressed by
    name concerns a session left by somebody else and closes no handle of
    the trace.  Whether a release call succeeds is not looked at, as the
    destructors do not look at it. *)
Record Open : Type := {
  registrations : list Z;
  sessions : list Z;
  enablements : list (Z * GUID)
}.

Definition nothing_open : Open :=
  {| registrations := []; sessions := []; enablements := [] |}.

Fixpoint remove_one {A} (eqb : A -> A -> bool) (x : A) (l : list A)
    : list A :=
  match l with
  | [] => []
  | y :: l' => if eqb x y then l' else y :: remove_one eqb x l'
  end.

Definition enablement_eqb (a b : Z * GUID) : bool :=
  (fst a =? fst b) && (snd a =? snd b).

Definition account (c : Call) (r : Response) (o : Open) : Open :=
  match c with
  | EventRegister _ =>
      if result r =? ERROR_SUCCESS
      then {| registrations := out r :: registrations o;
              sessions := sessions o;
              enablements := enablements o |}
      else o
  | EventUnregister h =>
      {| registrations := remove_one Z.eqb h (registrations o);
         sessions := sessions o;
         enablements := enablements o |}
  | StartTraceA _ _ _ =>
      if result r =? ERROR_SUCCESS
      then {| registrations := registrations o;
              sessions := out r :: sessions o;
              enablements := enablements o |}
      else o
  | ControlTraceA h None _ controlCode =>
      if controlCode =? EVENT_TRACE_CONTROL_STOP
      then {| registrations := registrations o;
              sessions := remove_one Z.eqb h (sessions o);
              enablements := enablements o |}
      else o
  | ControlTraceA _ (Some _) _ _ => o
  | EnableTraceEx2 h id controlCode _ _ _ _ =>
      if controlCode =? EVENT_CONTROL_CODE_ENABLE_PROVIDER
      then if result r =? ERROR_SUCCESS
           then {| registrations := registrations o;
                   sessions := sessions o;
                   enablements := (h, id) :: enablements o |}
           else o
      else if controlCode =? EVENT_CONTROL_CODE_DISABLE_PROVIDER
           then {| registrations := registrations o;
                   sessions := sessions o;
                   enablements :=
                     remove_one enablement_eqb (h, id) (enablements o) |}
           else o
  | CoCreateGuid | create_directories _ | EventWrite _ _ _ _ => o
  end.

(** The calls [todo], made after the calls [done], applied to [o]. *)
Fixpoint replay (P : Platform) (done todo : Trace) (o : Open) : Open :=
  match todo with
  | [] => o
  | c :: rest =>
      replay P (done ++ [c])%list rest (account c (respond P done c) o)
  end.

Definition opened (P : Platform) (t : Trace) : Open :=
  replay P [] t nothing_open.

(** What a constructed implementation object holds. *)
Definition holding (self : Impl) (o : Open) : Open :=
  {| registrations := Provider_Handle (m_provider self) :: registrations o;
     sessions := Session_Handle (m_session self) :: sessions o;
     enablements :=
       (SessionHandle (m_enabledProvider self),
        EnabledProviderId (m_enabledProvider self)) :: enablements o |}.

(** What is known of a construction that returns. *)
Definition constructed (v : Variant) (sessionName outputFolder : string)
    (bufferSize : Z) (P : Platform) (t : Trace) (self : Impl)
    (made : Trace) : Prop :=
  (exists sessionId blk rest,
     EventTracePropertiesWithBuffers_ctor v sessionId bufferSize
       (String.append outputFolder "\log.etl") = Returned blk /\
     (map call_name rest = [] \/
      map call_name rest = ["ControlTraceA"; "StartTraceA"]%string) /\
     made =
       match v with
       | MiniEtwLog_h =>
           [CoCreateGuid; EventRegister (m_providerId self);
            create_directories outputFolder;
            StartTraceA 0 (c_str sessionName) blk] ++ rest ++
           [enable_call (Session_Handle (m_session self))
              (m_providerId self)]
       | part_000_a | part_000_b =>
           [CoCreateGuid; CoCreateGuid;
            StartTraceA 0 (c_str sessionName) blk] ++ rest ++
           [enable_call (Session_Handle (m_session self))
              (m_providerId self);
            EventRegister (m_providerId self)]
       end%list) /\
  SessionHandle (m_enabledProvider self) = Session_Handle (m_session self) /\
  EnabledProviderId (m_enabledProvider self) = m_providerId self /\
  opened P (t ++ made) = holding self (opened P t).


(** A platform on which a session of the name was left behind: starting
    fails with a name collision until a stop call has been made. *)
Definition stale_platform : Platform :=
  {| respond := fun t c =>
       match c with
       | StartTraceA _ _ _ =>
           if existsb is_stop t
           then answer ERROR_SUCCESS (Z.of_nat (S (List.length t)))
           else answer ERROR_ALREADY_EXISTS 0
       | _ => answer 0 (Z.of_nat (S (List.length t)))
       end;
     system_category_message := messages;
     FormatMessageA := fun _ => None |}.

(** A platform on which enabling a provider fails. *)
Definition deaf_platform : Platform :=
  {| respond := fun t c =>
       match c with
       | EnableTraceEx2 _ _ _ _ _ _ _ => answer 5 0
       | _ => answer 0 (Z.of_nat (S (List.length t)))
       end;
     system_category_message := messages;
     FormatMessageA := fun _ => None |}.

(** *** The emit loop of the second test of part_002

    [for (l ...) extraLogs[l](message)]: one emit through each logger of a
    vector, in order; an exception leaves the loop. *)
Fixpoint emit_each (v : Variant) (extraLogs : list MiniLog) (message : span)
    : M unit :=
  match extraLogs with
  | [] => ret tt
  | log :: rest =>
      MiniLog_call v log message ;;;
      emit_each v rest message
  end.

(** The facade that owns an implementation object. *)
Definition live (self : Impl) : MiniLog := {| m_impl := Some self |}.

(** *** The consumer of the test programs ([namespace Consumers])

    The trace file is read through three platform calls.  [ProcessTrace]
    hands the records of the file, in the order of the file, to the
    callback of the handler and then returns a status. *)

Record EVENT_RECORD : Type := {
  ProviderId : GUID;     (* EventHeader.ProviderId *)
  UserData : list ascii  (* the UserDataLength bytes at UserData *)
}.

(** The GUID of the metadata records of a trace file (evntrace.h). *)
Definition EventTraceGuid : GUID := 0x68fdd9004a3e11d184f40000f80464e3.

(** [(TRACEHANDLE)INVALID_HANDLE_VALUE] on x64. *)
Definition INVALID_PROCESSTRACE_HANDLE : Z := 2 ^ 64 - 1.

Inductive ConsumerCall : Type :=
| GetSystemTime
| SystemTimeToFileTime
| OpenTraceA (logFileName : string)
| ProcessTrace (handle : Z)
| CloseTrace (handle : Z).

Record TracePlatform : Type := {
  open_trace : string -> Z;                  (* the handle OpenTraceA returns *)
  trace_records : Z -> list EVENT_RECORD;    (* what ProcessTrace delivers *)
  process_status : Z -> Z                    (* what ProcessTrace returns *)
}.

(** The two exceptions of the consumer. *)
Inductive exception : Type :=
| invalid_argument (what : string)
| system_error_thrown (e : system_error).

(** Which records the callback keeps: those of one provider
    (src/Test/MiniEtwLogTest.cpp), or all but the metadata records
    (part_001 and part_002). *)
Inductive Selection : Type :=
| ByProvider (providerId : GUID)
| SkipMetadata.

Definition selected (sel : Selection) (evt : EVENT_RECORD) : bool :=
  match sel with
  | ByProvider providerId => providerId =? ProviderId evt
  | SkipMetadata => negb (ProviderId evt =? EventTraceGuid)
  end.

(** The lambda given to [EventHandler]: [results.emplace_back(data,
    data + size)] for a record that is kept. *)
Definition handler_callback (sel : Selection) (results : list (list ascii))
    (evt : EVENT_RECORD) : list (list ascii) :=
  if selected sel evt then (results ++ [UserData evt])%list else results.

(** [AutoTraceHandle(TRACEHANDLE trace)]. *)
Definition AutoTraceHandle_ctor (trace : Z) : exception + Z :=
  if trace =? INVALID_PROCESSTRACE_HANDLE
  then inl (invalid_argument "Trace is invalid")
  else inr trace.

(** How a call of [ReadRecords] ends. *)
Inductive Read : Type :=
| Records (results : list (list ascii))
| Raised (e : exception)
| ReadUndefined.   (* the verifier declared [noreturn] has returned *)

(** The verifier a consumer calls.  The consumer that selects by provider
    (src/Test/MiniEtwLogTest.cpp) asks the logger for [GetProviderId]: it
    is compiled against the header that declares the verifier
    [noreturn], with an optional expected value.  The consumers of
    part_001 and part_002 call the verifier of the variant [v] they are
    built with. *)
Definition ReadRecords_verifier (v : Variant) (sel : Selection) : Variant :=
  match sel with
  | ByProvider _ => part_000_a
  | SkipMetadata => v
  end.

(** [ReadRecords]: how it ends, and the calls made.  The handle object is
    destroyed, closing the trace, on the way out of the function once it
    has been constructed, whether the function returns or throws. *)
Definition ReadRecords (v : Variant) (sel : Selection) (file : string)
    (C : TracePlatform) (P : Platform) : Read * list ConsumerCall :=
  let h := open_trace C file in
  let calls := [GetSystemTime; SystemTimeToFileTime; OpenTraceA file] in
  match AutoTraceHandle_ctor h with
  | inl e => (Raised e, calls)
  | inr trace =>
      let results := fold_left (handler_callback sel) (trace_records C trace)
                       [] in
      let calls := (calls ++ [ProcessTrace trace])%list in
      match fst (VerifyHResult (ReadRecords_verifier v sel)
                   (to_ULONG (process_status C trace))
                   "ProcessTrace" ERROR_SUCCESS P []) with
      | Returned _ => (Records results, (calls ++ [CloseTrace trace])%list)
      | Thrown e =>
          (Raised (system_error_thrown e),
           (calls ++ [CloseTrace trace])%list)
      | _ => (ReadUndefined, calls)
      end
  end.

Definition sample_message : span := {| span_data := 4096; span_size := 13 |}.

(** A platform on which the second emit fails. *)
Definition one_write_platform : Platform :=
  {| respond := fun t c =>
       match c with
       | EventWrite _ _ _ _ =>
           if existsb (fun c' => String.eqb (call_name c') "EventWrite") t
           then answer 8 0
           else answer 0 0
       | _ => answer 0 (Z.of_nat (S (List.length t)))
       end;
     system_category_message := messages;
     FormatMessageA := fun _ => None |}.

(** * Verification *)

(** ** The scenario of the test program *)

Example logger_scope_MiniEtwLog_h :
  let r := logger_scope MiniEtwLog_h "Mini logger" "temp_out" 4
             {| span_data := 4096; span_size := 13 |} quiet_platform [] in
  fst r = Returned tt /\
  map call_name (snd r) =
    ["CoCreateGuid"; "EventRegister"; "create_directories"; "StartTraceA";
     "EnableTraceEx2(enable)"; "EventWrite"; "EnableTraceEx2(disable)";
     "ControlTraceA"; "EventUnregister"]%string.
Proof. vm_compute. split; reflexivity. Qed.

Example logger_scope_part_000 :
  let r := logger_scope part_000_b "Mini logger" "temp_out" 4
             {| span_data := 4096; span_size := 13 |} quiet_platform [] in
  fst r = Returned tt /\
  map call_name (snd r) =
    ["CoCreateGuid"; "CoCreateGuid"; "StartTraceA";
     "EnableTraceEx2(enable)"; "EventRegister"; "EventWrite";
     "EventUnregister"; "EnableTraceEx2(disable)"; "ControlTraceA"]%string.
Proof. vm_compute. split; reflexivity. Qed.

(** On a platform where the name stays taken, construction throws after
    the retry and the registration made before it is undone. *)
Example logger_scope_crowded :
  let r := logger_scope MiniEtwLog_h "Mini logger" "temp_out" 4
             {| span_data := 4096; span_size := 13 |} crowded_platform [] in
  fst r = Thrown {| code := 183; what_arg := "StartTrace" |} /\
  map call_name (snd r) =
    ["CoCreateGuid"; "EventRegister"; "create_directories"; "StartTraceA";
     "ControlTraceA"; "StartTraceA"; "EventUnregister"]%string.
Proof. vm_compute. split; reflexivity. Qed.

(** ** Integer conversions *)

Lemma to_ULONG_range (z : Z) : 0 <= to_ULONG z < 2 ^ 32.
Proof. unfold to_ULONG. apply Z.mod_pos_bound. lia. Qed.

Lemma to_ULONG_small (z : Z) : 0 <= z < 2 ^ 32 -> to_ULONG z = z.
Proof. intros H. unfold to_ULONG. apply Z.mod_small. exact H. Qed.

Lemma SUCCEEDED_spec (hr : Z) :
  SUCCEEDED hr = (hr mod 2 ^ 32 <? 2 ^ 31).
Proof.
  unfold SUCCEEDED, to_int.
  pose proof (Z.mod_pos_bound hr (2 ^ 32) ltac:(lia)) as Hb.
  destruct (hr mod 2 ^ 32 <? 2 ^ 31) eqn:E.
  - apply Z.leb_le. lia.
  - apply Z.leb_gt. lia.
Qed.

Lemma clamp_clamped_into (v lo hi : Z) :
  lo <= hi -> clamp v lo hi = clamped_into lo hi v.
Proof.
  intros Hle. unfold clamp, clamped_into.
  destruct (v <? lo) eqn:E1; [apply Z.ltb_lt in E1 | apply Z.ltb_ge in E1];
    (destruct (hi <? v) eqn:E2;
     [apply Z.ltb_lt in E2 | apply Z.ltb_ge in E2]); lia.
Qed.

(** ** The Control-Block Packer *)

Lemma SetLogFilePath_fits (blk : EventTracePropertiesWithBuffers)
    (logFilePath : string) :
  (String.length logFilePath <= LogFilePath_extent)%nat ->
  SetLogFilePath blk logFilePath =
    Returned {| Properties := Properties blk;
                SessionName := SessionName blk;
                LogFilePath := copy_into (list_ascii_of_string logFilePath)
                                         (LogFilePath blk) |}.
Proof.
  intros H. unfold SetLogFilePath.
  destruct (Nat.leb_spec (String.length logFilePath) LogFilePath_extent)
    as [_|Hgt].
  - reflexivity.
  - lia.
Qed.

Lemma SetLogFilePath_too_long (blk : EventTracePropertiesWithBuffers)
    (logFilePath : string) :
  (LogFilePath_extent < String.length logFilePath)%nat ->
  SetLogFilePath blk logFilePath = AssertFailed.
Proof.
  intros H. unfold SetLogFilePath.
  destruct (Nat.leb_spec (String.length logFilePath) LogFilePath_extent)
    as [Hle|_].
  - lia.
  - reflexivity.
Qed.

Lemma SetLogFilePath_Properties (blk blk' : EventTracePropertiesWithBuffers)
    (logFilePath : string) :
  SetLogFilePath blk logFilePath = Returned blk' ->
  Properties blk' = Properties blk.
Proof.
  unfold SetLogFilePath.
  destruct (String.length logFilePath <=? LogFilePath_extent)%nat;
    intros H; inversion H; reflexivity.
Qed.

(** The packer returns a block whenever the path fits. *)
Lemma packer_returns (v : Variant) (sessionId : GUID) (bufferSize : Z)
    (logFilePath : string) :
  (String.length logFilePath <= LogFilePath_extent)%nat ->
  exists blk,
    EventTracePropertiesWithBuffers_ctor v sessionId bufferSize logFilePath
      = Returned blk.
Proof.
  intros H. unfold EventTracePropertiesWithBuffers_ctor.
  rewrite SetLogFilePath_fits by exact H. eexists. reflexivity.
Qed.

Lemma packer_too_long (v : Variant) (sessionId : GUID) (bufferSize : Z)
    (logFilePath : string) :
  (LogFilePath_extent < String.length logFilePath)%nat ->
  EventTracePropertiesWithBuffers_ctor v sessionId bufferSize logFilePath
    = AssertFailed.
Proof.
  intros H. unfold EventTracePropertiesWithBuffers_ctor.
  apply SetLogFilePath_too_long. exact H.
Qed.

(** C8: for every requested buffer size, the block the packer returns (and
    it returns one whenever the path fits) records the request clamped
    into [0, 16384]. *)
Theorem C8_buffer_size_clamped (v : Variant) (sessionId : GUID)
    (bufferSize : Z) (logFilePath : string) :
  (String.length logFilePath <= LogFilePath_extent)%nat ->
  exists blk,
    EventTracePropertiesWithBuffers_ctor v sessionId bufferSize logFilePath
      = Returned blk /\
    BufferSize (Properties blk) = clamped_into 0 16384 bufferSize.
Proof.
  intros Hfit.
  destruct (packer_returns v sessionId bufferSize logFilePath Hfit)
    as [blk Hblk].
  exists blk. split; [exact Hblk|].
  unfold EventTracePropertiesWithBuffers_ctor in Hblk.
  apply SetLogFilePath_Properties in Hblk. rewrite Hblk.
  cbn [Properties BufferSize].
  rewrite clamp_clamped_into by lia.
  apply to_ULONG_small. unfold clamped_into. lia.
Qed.

Lemma C8_buffer_size_clamped_witness :
  exists blk,
    EventTracePropertiesWithBuffers_ctor MiniEtwLog_h 9 70000 "out\log.etl"
      = Returned blk /\
    BufferSize (Properties blk) = 16384.
Proof.
  apply (C8_buffer_size_clamped MiniEtwLog_h 9 70000 "out\log.etl").
  unfold LogFilePath_extent. simpl. lia.
Defined.

(** C5 as worded fails on part_000: its packer sets the sequential flag
    alone. *)
Lemma C5_logging_mode_counterexample :
  ~ logging_mode_claimed part_000_a 9 4 "out\log.etl".
Proof.
  intros H. specialize (H _ eq_refl). vm_compute in H. discriminate H.
Qed.

(** C5 (amended): the block the packer of src/Log/MiniEtwLog.h returns has
    its logging mode equal to sequential | private | in-process; the block
    the packer of either implementation of part_000 returns has the
    sequential flag alone.  The packer returns a block whenever the path
    fits. *)
Theorem C5_logging_mode (v : Variant) (sessionId : GUID) (bufferSize : Z)
    (logFilePath : string) :
  (String.length logFilePath <= LogFilePath_extent)%nat ->
  exists blk,
    EventTracePropertiesWithBuffers_ctor v sessionId bufferSize logFilePath
      = Returned blk /\
    LogFileMode (Properties blk) =
      match v with
      | MiniEtwLog_h => sequential_private_in_proc
      | part_000_a | part_000_b => EVENT_TRACE_FILE_MODE_SEQUENTIAL
      end.
Proof.
  intros Hfit.
  destruct (packer_returns v sessionId bufferSize logFilePath Hfit)
    as [blk Hblk].
  exists blk. split; [exact Hblk|].
  unfold EventTracePropertiesWithBuffers_ctor in Hblk.
  apply SetLogFilePath_Properties in Hblk. rewrite Hblk.
  destruct v; reflexivity.
Qed.

Lemma C5_logging_mode_witness :
  exists blk,
    EventTracePropertiesWithBuffers_ctor MiniEtwLog_h 9 4 "out\log.etl"
      = Returned blk /\
    LogFileMode (Properties blk) = 0x20801.
Proof.
  apply (C5_logging_mode MiniEtwLog_h 9 4 "out\log.etl").
  unfold LogFilePath_extent. simpl. lia.
Defined.

(** ** The ResultCode Verifier *)

(** What the verifier throws: the code is the status as an [int]; the text
    is the system-table text followed by the caller's diagnostic string
    when the category message of the code is the one of code 0 and the
    table has an entry, and the diagnostic string alone otherwise. *)
Lemma make_system_error_spec (P : Platform) (hresult : Z)
    (additionalInfo : string) :
  code (make_system_error P hresult additionalInfo) = to_int hresult /\
  (forall errStr,
     system_category_message P (to_int hresult)
       = system_category_message P 0 ->
     FormatMessageA P hresult = Some errStr ->
     what_arg (make_system_error P hresult additionalInfo)
       = String.append errStr additionalInfo) /\
  (system_category_message P (to_int hresult)
     <> system_category_message P 0 \/
   FormatMessageA P hresult = None ->
   what_arg (make_system_error P hresult additionalInfo) = additionalInfo).
Proof.
  unfold make_system_error.
  destruct (String.eqb_spec (system_category_message P (to_int hresult))
                            (system_category_message P 0)) as [Heq|Hne].
  - destruct (FormatMessageA P hresult) as [errStr|] eqn:Hfmt.
    + split; [reflexivity|]. split.
      * intros errStr' _ H. inversion H. reflexivity.
      * intros [H|H]; [contradiction | discriminate H].
    + split; [reflexivity|]. split.
      * intros errStr' _ H. discriminate H.
      * intros _. reflexivity.
  - split; [reflexivity|]. split.
    + intros errStr Heq. contradiction.
    + intros _. reflexivity.
Qed.

Lemma VerifyHResult_u32_spec (P : Platform) (hresult : Z)
    (additionalInfo : string) (expectedGoodResult : Z) :
  VerifyHResult_u32 P hresult additionalInfo expectedGoodResult =
    if hresult =? expectedGoodResult then Returned tt
    else Thrown (make_system_error P hresult additionalInfo).
Proof.
  unfold VerifyHResult_u32.
  destruct (hresult =? expectedGoodResult); reflexivity.
Qed.

Lemma VerifyHResult_opt_spec (P : Platform) (hresult : Z)
    (additionalInfo : string) (expectedGoodResult : option Z) :
  VerifyHResult_opt P hresult additionalInfo expectedGoodResult =
    if SUCCEEDED hresult &&
       match expectedGoodResult with
       | Some e => hresult =? e
       | None => true
       end
    then Undefined
    else Thrown (make_system_error P hresult additionalInfo).
Proof.
  unfold VerifyHResult_opt.
  destruct expectedGoodResult as [e|];
    [destruct (hresult =? e)|]; destruct (SUCCEEDED hresult); reflexivity.
Qed.




(** The verifier on a call's result with 0 expected, in any variant. *)
Lemma VerifyHResult_result (v : Variant) (r : Response)
    (additionalInfo : string) (P : Platform) (t : Trace) :
  VerifyHResult v (result r) additionalInfo 0 P t =
    (if result r =? 0 then passed v tt
     else Thrown (make_system_error P (result r) additionalInfo), t).
Proof.
  unfold VerifyHResult, lift, passed. f_equal.
  destruct v; try apply VerifyHResult_u32_spec.
  rewrite VerifyHResult_opt_spec, SUCCEEDED_spec.
  pose proof (to_ULONG_range (status r)) as Hr. fold (result r) in Hr.
  rewrite (Z.mod_small (result r)) by exact Hr.
  destruct (Z.eqb_spec (result r) 0) as [H0|Hn].
  - rewrite H0. reflexivity.
  - rewrite andb_false_r. reflexivity.
Qed.

(** ** The emission path *)

Lemma Write_run (v : Variant) (self : Impl) (message : span) (P : Platform)
    (t : Trace) :
  Write v self message P t =
    (if result (respond P t (write_call self message)) =? 0
     then passed v tt
     else Thrown (make_system_error P
                    (result (respond P t (write_call self message)))
                    "EventWrite"),
     (t ++ [write_call self message])%list).
Proof.
  unfold Write, bind, call. fold (write_call self message).
  apply VerifyHResult_result.
Qed.

(** C3 as worded fails on a payload of 2^32 bytes: the data block records
    the length 0. *)
Lemma C3_emit_counterexample :
  ~ emit_claimed MiniEtwLog_h quiet_platform sample_impl
      {| span_data := 4096; span_size := 2 ^ 32 |} [].
Proof.
  unfold emit_claimed. rewrite Write_run. vm_compute. intros H.
  discriminate H.
Qed.

(** C3 (amended): for every payload whose length fits the 32-bit size field
    of a data block, one emit call issues exactly one write call, through
    the registration's handle, with one data block that holds the caller's
    pointer and the payload's length, and throws the verifier's failure
    when the call reports anything but success.  When the call reports
    success the emit returns normally in src/Log/MiniEtwLog.h and in the
    second implementation of part_000; in the first implementation of
    part_000 the verifier then returns although declared [noreturn]. *)
Theorem C3_emit (v : Variant) (P : Platform) (self : Impl) (message : span)
    (t : Trace) :
  0 <= span_size message < 2 ^ 32 ->
  let c := write_call_claimed self message in
  let failure :=
    make_system_error P (result (respond P t c)) "EventWrite" in
  snd (Write v self message P t) = (t ++ [c])%list /\
  (result (respond P t c) <> ERROR_SUCCESS ->
   fst (Write v self message P t) = Thrown failure) /\
  (result (respond P t c) = ERROR_SUCCESS ->
   fst (Write v self message P t) =
     match v with
     | MiniEtwLog_h | part_000_b => Returned tt
     | part_000_a => Undefined
     end).
Proof.
  intros Hsz c failure. subst failure. rewrite Write_run. cbn [fst snd].
  assert (Hc : write_call self message = c).
  { unfold write_call, c, write_call_claimed.
    rewrite (to_ULONG_small _ Hsz). reflexivity. }
  rewrite Hc. unfold ERROR_SUCCESS.
  split; [reflexivity|]. split; intros Hres.
  - destruct (Z.eqb_spec (result (respond P t c)) 0); [contradiction|].
    reflexivity.
  - rewrite Hres. destruct v; reflexivity.
Qed.

Lemma C3_emit_witness :
  0 <= 13 < 2 ^ 32 /\
  Write MiniEtwLog_h sample_impl
    {| span_data := 4096; span_size := 13 |} quiet_platform [] =
    (Returned tt,
     [EventWrite 7 c_descriptor 1
        [{| Ptr := 4096; Size := 13; Reserved := 0 |}]]).
Proof.
  split; [lia|].
  destruct (C3_emit MiniEtwLog_h quiet_platform sample_impl
              {| span_data := 4096; span_size := 13 |} [])
    as (Hcalls & _ & Hok); [simpl; lia|].
  specialize (Hok eq_refl).
  destruct (Write MiniEtwLog_h sample_impl
              {| span_data := 4096; span_size := 13 |} quiet_platform [])
    as [o calls].
  cbn [fst snd] in Hcalls, Hok. rewrite Hcalls, Hok. reflexivity.
Defined.

(** C4 as worded fails: the descriptor of a write call has id 1. *)
Lemma C4_descriptor_counterexample :
  exists d n blocks,
    snd (Write MiniEtwLog_h sample_impl
           {| span_data := 4096; span_size := 13 |} quiet_platform [])
      = [EventWrite 7 d n blocks] /\
    ~ all_zero d.
Proof.
  exists c_descriptor, 1, [{| Ptr := 4096; Size := 13; Reserved := 0 |}].
  split; [reflexivity|].
  intros [H _]. discriminate H.
Qed.

(** C4 (amended): every emit call, in every variant and for every payload,
    writes with the same descriptor, whose id and version are 1 and whose
    channel, level, opcode, task and keyword are 0. *)
Theorem C4_descriptor (v : Variant) (P : Platform) (self : Impl)
    (message : span) (t : Trace) :
  exists h d n blocks,
    snd (Write v self message P t) = (t ++ [EventWrite h d n blocks])%list /\
    d = c_descriptor /\
    Id d = 1 /\ Version d = 1 /\ Channel d = 0 /\ Level d = 0 /\
    Opcode d = 0 /\ Task d = 0 /\ Keyword d = 0.
Proof.
  rewrite Write_run. unfold write_call. cbn [snd].
  do 4 eexists. split; [reflexivity|]. repeat split.
Qed.

(** ** Teardown *)

Lemma Impl_dtor_run (v : Variant) (self : Impl) (P : Platform) (t : Trace) :
  Impl_dtor v self P t =
    (Returned tt,
     (t ++ match v with
           | MiniEtwLog_h =>
               [disable_call self; stop_call self; unregister_call self]
           | part_000_a | part_000_b =>
               [unregister_call self; disable_call self; stop_call self]
           end)%list).
Proof.
  destruct v; cbv [Impl_dtor EnabledProvider_dtor Session_dtor Provider_dtor
                   DestroySession bind call ret disable_call stop_call
                   unregister_call];
    rewrite <- !app_assoc; reflexivity.
Qed.

(** C1 as worded fails on part_000: there the registration is undone
    first. *)
Lemma C1_teardown_counterexample :
  ~ teardown_claimed part_000_b quiet_platform sample_impl [].
Proof.
  unfold teardown_claimed. vm_compute. intros H. discriminate H.
Qed.

(** C1 (amended): destroying a Logger Facade never raises, whatever the
    platform answers.  In src/Log/MiniEtwLog.h the teardown calls are:
    disable, stop the session, unregister; in both implementations of
    part_000 they are: unregister, disable, stop the session.  So the
    Enablement is undone before the Session in every variant, and before
    the Registration in src/Log/MiniEtwLog.h only.  A facade with a null
    implementation pointer is destroyed without any call. *)
Theorem C1_teardown (v : Variant) (P : Platform) (t : Trace) :
  (forall self : Impl,
     MiniLog_dtor v {| m_impl := Some self |} P t =
       (Returned tt,
        (t ++ match v with
              | MiniEtwLog_h =>
                  [disable_call self; stop_call self; unregister_call self]
              | part_000_a | part_000_b =>
                  [unregister_call self; disable_call self; stop_call self]
              end)%list)) /\
  MiniLog_dtor v {| m_impl := None |} P t = (Returned tt, t) /\
  (forall log : MiniLog, fst (MiniLog_dtor v log P t) = Returned tt).
Proof.
  split; [intros self; apply Impl_dtor_run|].
  split; [reflexivity|].
  intros [[self|]]; unfold MiniLog_dtor; cbn [m_impl].
  - rewrite Impl_dtor_run. reflexivity.
  - reflexivity.
Qed.

(** ** Session construction *)

Lemma Session_ctor_run (v : Variant) (sessionId : GUID)
    (sessionName logFileName : string) (bufferSize : Z) (P : Platform)
    (t : Trace) :
  Session_ctor v sessionId sessionName logFileName bufferSize P t =
    match EventTracePropertiesWithBuffers_ctor v sessionId bufferSize
            logFileName with
    | Returned blk => started v P t sessionName blk
    | Thrown e => (Thrown e, t)
    | AssertFailed => (AssertFailed, t)
    | NullDeref => (NullDeref, t)
    | Undefined => (Undefined, t)
    end.
Proof.
  unfold Session_ctor, bind at 1, lift.
  destruct (EventTracePropertiesWithBuffers_ctor v sessionId bufferSize
              logFileName) as [blk|e| | |]; try reflexivity.
  unfold started, bind at 1, assert.
  destruct (strlen sessionName <=? SessionName_extent)%nat; [|reflexivity].
  unfold bind at 1. unfold start at 1, bind at 1, call, ret.
  cbn [fst snd Session_Handle m_properties].
  fold (start1 sessionName blk). fold (answer1 P t sessionName blk).
  unfold bind at 1.
  destruct (result (answer1 P t sessionName blk) =? ERROR_ALREADY_EXISTS).
  - unfold bind at 1, DestroySession, bind at 1, call, ret.
    cbn [Session_Handle m_properties].
    fold (stop2 P t sessionName blk).
    fold (answer2 P t sessionName blk).
    unfold start, bind at 1, call, ret.
    cbn [Session_Handle m_properties].
    fold (start3 P t sessionName blk).
    rewrite <- app_assoc. cbn [app].
    fold (answer3 P t sessionName blk).
    unfold bind, ret. cbn [fst snd].
    rewrite VerifyHResult_result. unfold verified, ERROR_SUCCESS.
    rewrite <- app_assoc. cbn [app].
    destruct (result (answer3 P t sessionName blk) =? 0);
      [destruct v|]; reflexivity.
  - unfold bind, ret. cbn [fst snd].
    rewrite VerifyHResult_result. unfold verified, ERROR_SUCCESS.
    destruct (result (answer1 P t sessionName blk) =? 0);
      [destruct v|]; reflexivity.
Qed.

(** C2: when the first start call reports that the name exists, the
    constructor issues exactly three calls: the start, a stop under the
    same name, and one more start.  The stop's answer is not looked at.
    The constructor throws the verifier's failure for any result of the
    retry other than success, a second collision included.  When the
    retry reports success the constructor returns the session in
    src/Log/MiniEtwLog.h and in the second implementation of part_000; in
    the first implementation of part_000 the verifier then returns
    although declared [noreturn]. *)
Theorem C2_collision_retry_once (v : Variant) (P : Platform) (t : Trace)
    (sessionId : GUID) (sessionName logFileName : string) (bufferSize : Z)
    (blk : EventTracePropertiesWithBuffers) :
  EventTracePropertiesWithBuffers_ctor v sessionId bufferSize logFileName
    = Returned blk ->
  (strlen sessionName <= SessionName_extent)%nat ->
  result (answer1 P t sessionName blk) = ERROR_ALREADY_EXISTS ->
  let retry := answer3 P t sessionName blk in
  let failure := make_system_error P (result retry) "StartTrace" in
  Session_ctor v sessionId sessionName logFileName bufferSize P t =
    (if result retry =? ERROR_SUCCESS
     then match v with
          | MiniEtwLog_h | part_000_b =>
              Returned
                {| Session_Handle := out retry;
                   m_properties :=
                     written retry
                       (written (answer2 P t sessionName blk)
                          (written (answer1 P t sessionName blk) blk)) |}
          | part_000_a => Undefined
          end
     else Thrown failure,
     (t ++ [StartTraceA 0 (c_str sessionName) blk;
            ControlTraceA (out (answer1 P t sessionName blk))
              (Some (c_str sessionName))
              (written (answer1 P t sessionName blk) blk)
              EVENT_TRACE_CONTROL_STOP;
            StartTraceA (out (answer1 P t sessionName blk))
              (c_str sessionName)
              (written (answer2 P t sessionName blk)
                 (written (answer1 P t sessionName blk) blk))])%list) /\
  (result retry <> ERROR_SUCCESS ->
   fst (Session_ctor v sessionId sessionName logFileName bufferSize P t)
     = Thrown failure) /\
  (result retry = ERROR_ALREADY_EXISTS ->
   fst (Session_ctor v sessionId sessionName logFileName bufferSize P t)
     = Thrown failure).
Proof.
  intros Hblk Hname Hcoll retry failure.
  assert (Hrun :
    Session_ctor v sessionId sessionName logFileName bufferSize P t =
      (verified v P retry (written (answer2 P t sessionName blk)
                             (written (answer1 P t sessionName blk) blk)),
       (t ++ [start1 sessionName blk; stop2 P t sessionName blk;
              start3 P t sessionName blk])%list)).
  { rewrite Session_ctor_run, Hblk. unfold started.
    destruct (Nat.leb_spec (strlen sessionName) SessionName_extent);
      [|lia].
    rewrite Hcoll. reflexivity. }
  assert (Hthrow : result retry <> ERROR_SUCCESS ->
    fst (Session_ctor v sessionId sessionName logFileName bufferSize P t)
      = Thrown failure).
  { intros Hne. rewrite Hrun. cbn [fst]. unfold verified.
    destruct (Z.eqb_spec (result retry) ERROR_SUCCESS); [contradiction|].
    reflexivity. }
  split; [|split; [exact Hthrow|]].
  - rewrite Hrun. unfold verified, passed.
    destruct (result retry =? ERROR_SUCCESS); [destruct v|]; reflexivity.
  - intros Hagain. apply Hthrow. rewrite Hagain. discriminate.
Qed.

Lemma C2_collision_retry_once_witness :
  Session_ctor MiniEtwLog_h 9 "Mini logger" "out\log.etl" 4
    crowded_platform [] =
    (Thrown {| code := 183; what_arg := "StartTrace" |},
     [StartTraceA 0 "Mini logger" sample_block;
      ControlTraceA 0 (Some "Mini logger"%string) sample_block
        EVENT_TRACE_CONTROL_STOP;
      StartTraceA 0 "Mini logger" sample_block]).
Proof.
  destruct (C2_collision_retry_once MiniEtwLog_h crowded_platform [] 9
              "Mini logger" "out\log.etl" 4 sample_block) as [H _].
  - reflexivity.
  - vm_compute. lia.
  - reflexivity.
  - rewrite H. reflexivity.
Defined.

(** ** Construction of the facade *)

Lemma MakeGuid_run (v : Variant) (P : Platform) (t : Trace) :
  MakeGuid v P t =
    (if result (respond P t CoCreateGuid) =? 0
     then passed v (out (respond P t CoCreateGuid))
     else Thrown (make_system_error P (result (respond P t CoCreateGuid))
                    "CoCreateGuid failed"),
     (t ++ [CoCreateGuid])%list).
Proof.
  unfold MakeGuid, bind, call, ret, S_OK. rewrite VerifyHResult_result.
  destruct (result (respond P t CoCreateGuid) =? 0);
    [destruct v|]; reflexivity.
Qed.

Lemma Provider_ctor_run (v : Variant) (providerId : GUID) (P : Platform)
    (t : Trace) :
  Provider_ctor v providerId P t =
    (if result (respond P t (EventRegister providerId)) =? 0
     then passed v
            {| Provider_Handle :=
                 out (respond P t (EventRegister providerId)) |}
     else Thrown (make_system_error P
                    (result (respond P t (EventRegister providerId)))
                    "EventRegister"),
     (t ++ [EventRegister providerId])%list).
Proof.
  unfold Provider_ctor, bind, call, ret, ERROR_SUCCESS.
  rewrite VerifyHResult_result.
  destruct (result (respond P t (EventRegister providerId)) =? 0);
    [destruct v|]; reflexivity.
Qed.

Lemma EnabledProvider_ctor_run (v : Variant) (sessionHandle : Z)
    (providerId : GUID) (P : Platform) (t : Trace) :
  EnabledProvider_ctor v sessionHandle providerId P t =
    (if result (respond P t (enable_call sessionHandle providerId)) =? 0
     then passed v {| SessionHandle := sessionHandle;
                      EnabledProviderId := providerId |}
     else Thrown (make_system_error P
                    (result (respond P t
                               (enable_call sessionHandle providerId)))
                    "EnableTraceEx2 - enabling provider"),
     (t ++ [enable_call sessionHandle providerId])%list).
Proof.
  unfold EnabledProvider_ctor, bind, call, ret, ERROR_SUCCESS.
  cbn [SessionHandle EnabledProviderId].
  fold (enable_call sessionHandle providerId).
  rewrite VerifyHResult_result.
  destruct (result (respond P t (enable_call sessionHandle providerId)) =? 0);
    [destruct v|]; reflexivity.
Qed.

Lemma MakeDirectories_run (outputFolder : string) (P : Platform) (t : Trace) :
  MakeDirectories outputFolder P t =
    (if status (respond P t (create_directories outputFolder)) =? 0
     then Returned outputFolder
     else Thrown {| code := status (respond P t
                                      (create_directories outputFolder));
                    what_arg := "create_directories" |},
     (t ++ [create_directories outputFolder])%list).
Proof.
  unfold MakeDirectories, bind, call, ret.
  destruct (status (respond P t (create_directories outputFolder)) =? 0);
    reflexivity.
Qed.

(** An oversized name or path stops the session constructor at an
    assertion, before it calls the platform. *)
Lemma Session_ctor_oversized (v : Variant) (sessionId : GUID)
    (sessionName outputFolder : string) (bufferSize : Z) (P : Platform)
    (t : Trace) :
  oversized sessionName outputFolder ->
  Session_ctor v sessionId sessionName
    (String.append outputFolder "\log.etl") bufferSize P t
    = (AssertFailed, t).
Proof.
  intros Hover. rewrite Session_ctor_run.
  destruct (Nat.leb_spec
              (String.length (String.append outputFolder "\log.etl"))
              LogFilePath_extent) as [Hfit|Hlong].
  - destruct (packer_returns v sessionId bufferSize _ Hfit) as [blk Hblk].
    rewrite Hblk. unfold started.
    destruct (Nat.leb_spec (strlen sessionName) SessionName_extent)
      as [Hname|_]; [|reflexivity].
    destruct Hover; lia.
  - rewrite packer_too_long by exact Hlong. reflexivity.
Qed.

(** C7 as worded fails: with a name of 257 characters the assertion fails
    after three calls (identity generation, registration, directory
    creation) have been made. *)
Lemma C7_oversized_counterexample :
  oversized long_name "out" /\
  MiniLog_ctor MiniEtwLog_h long_name "out" 4 quiet_platform [] =
    (AssertFailed,
     [CoCreateGuid; EventRegister 1; create_directories "out"]) /\
  ~ fails_before_any_call MiniEtwLog_h quiet_platform long_name "out" 4.
Proof.
  split; [left; vm_compute; lia|].
  split; [vm_compute; reflexivity|].
  unfold fails_before_any_call. vm_compute. intros H. discriminate H.
Qed.

(** C7 (amended): with an oversized session name or log-file path the
    construction never returns a facade and never starts, stops, enables
    or writes to a session, in a build that keeps its assertions.  In
    src/Log/MiniEtwLog.h it calls identity generation, then registration,
    then directory creation: when one of these calls fails, construction
    ends with the failure of that call, and after a failed directory
    creation the registration is undone; when the three succeed,
    construction ends at the failed assertion, those three calls made.
    In the second implementation of part_000 the same holds with two
    identity generations as the only earlier calls. *)
Theorem C7_oversized (P : Platform) (t : Trace)
    (sessionName outputFolder : string) (bufferSize : Z) :
  oversized sessionName outputFolder ->
  let guid := respond P t CoCreateGuid in
  let t1 := (t ++ [CoCreateGuid])%list in
  (let register := EventRegister (out guid) in
   let registered := respond P t1 register in
   let mkdir := create_directories outputFolder in
   let made := respond P (t1 ++ [register]) mkdir in
   MiniLog_ctor MiniEtwLog_h sessionName outputFolder bufferSize P t =
     if result guid =? 0
     then if result registered =? 0
          then if status made =? 0
               then (AssertFailed, (t1 ++ [register; mkdir])%list)
               else (Thrown {| code := status made;
                               what_arg := "create_directories" |},
                     (t1 ++ [register; mkdir;
                             EventUnregister (out registered)])%list)
          else (Thrown (make_system_error P (result registered)
                          "EventRegister"),
                (t1 ++ [register])%list)
     else (Thrown (make_system_error P (result guid) "CoCreateGuid failed"),
           t1)) /\
  (let guid' := respond P t1 CoCreateGuid in
   MiniLog_ctor part_000_b sessionName outputFolder bufferSize P t =
     if result guid =? 0
     then if result guid' =? 0
          then (AssertFailed, (t1 ++ [CoCreateGuid])%list)
          else (Thrown (make_system_error P (result guid')
                          "CoCreateGuid failed"),
                (t1 ++ [CoCreateGuid])%list)
     else (Thrown (make_system_error P (result guid) "CoCreateGuid failed"),
           t1)).
Proof.
  intros Hover. cbv zeta. split.
  - unfold MiniLog_ctor, Impl_ctor, bind at 1, bind at 1.
    rewrite MakeGuid_run.
    destruct (result (respond P t CoCreateGuid) =? 0); [|reflexivity].
    cbn [passed]. unfold bind at 1. rewrite Provider_ctor_run.
    match goal with |- context [result ?a =? 0] =>
      destruct (result a =? 0) end; [|reflexivity].
    cbn [passed]. unfold unwinding, bind at 1. rewrite MakeDirectories_run.
    match goal with |- context [status ?a =? 0] =>
      destruct (status a =? 0) end.
    + unfold bind at 1.
      rewrite Session_ctor_oversized by exact Hover.
      rewrite <- !app_assoc. reflexivity.
    + cbv [Provider_dtor bind call ret snd Provider_Handle].
      rewrite <- !app_assoc. reflexivity.
  - unfold MiniLog_ctor, Impl_ctor, bind at 1, bind at 1.
    rewrite MakeGuid_run.
    destruct (result (respond P t CoCreateGuid) =? 0); [|reflexivity].
    cbn [passed]. unfold bind at 1. rewrite MakeGuid_run.
    match goal with |- context [result ?a =? 0] =>
      destruct (result a =? 0) end; [|reflexivity].
    cbn [passed]. unfold bind at 1.
    rewrite Session_ctor_oversized by exact Hover. reflexivity.
Qed.

Lemma C7_oversized_witness :
  oversized long_name "out" /\
  MiniLog_ctor MiniEtwLog_h long_name "out" 4 quiet_platform [] =
    (AssertFailed,
     [CoCreateGuid; EventRegister 1; create_directories "out"]) /\
  MiniLog_ctor part_000_b long_name "out" 4 quiet_platform [] =
    (AssertFailed, [CoCreateGuid; CoCreateGuid]).
Proof.
  assert (Hover : oversized long_name "out") by (left; vm_compute; lia).
  split; [exact Hover|].
  destruct (C7_oversized quiet_platform [] long_name "out" 4 Hover)
    as [Hmain Hsecond].
  split; [rewrite Hmain | rewrite Hsecond]; reflexivity.
Defined.

(** ** The identity field of the control block *)

Lemma packer_Guid (v : Variant) (sessionId : GUID) (bufferSize : Z)
    (logFilePath : string) (blk : EventTracePropertiesWithBuffers) :
  EventTracePropertiesWithBuffers_ctor v sessionId bufferSize logFilePath
    = Returned blk ->
  Wnode_Guid (Wnode (Properties blk)) =
    match v with
    | MiniEtwLog_h => sessionId
    | part_000_a | part_000_b => 0
    end.
Proof.
  unfold EventTracePropertiesWithBuffers_ctor. intros H.
  apply SetLogFilePath_Properties in H. rewrite H. reflexivity.
Qed.

(** The first start call of a session constructor that returns carries
    the block of the packer. *)
Lemma Session_ctor_first_start (v : Variant) (sessionId : GUID)
    (sessionName logFileName : string) (bufferSize : Z) (P : Platform)
    (t t' : Trace) (s : Session) :
  Session_ctor v sessionId sessionName logFileName bufferSize P t
    = (Returned s, t') ->
  exists blk rest,
    EventTracePropertiesWithBuffers_ctor v sessionId bufferSize logFileName
      = Returned blk /\
    t' = (t ++ StartTraceA 0 (c_str sessionName) blk :: rest)%list.
Proof.
  rewrite Session_ctor_run.
  destruct (EventTracePropertiesWithBuffers_ctor v sessionId bufferSize
              logFileName) as [blk|e| | |]; try discriminate.
  unfold started.
  destruct (strlen sessionName <=? SessionName_extent)%nat; [|discriminate].
  destruct (result (answer1 P t sessionName blk) =? ERROR_ALREADY_EXISTS);
    intros H; inversion H; subst; exists blk; eexists;
    (split; [reflexivity|]); reflexivity.
Qed.

(** In the first implementation of part_000 no construction returns:
    it ends with the failure of the first identity generation, or with
    the return of the verifier. *)
Ltac part_000_a_no_return Hr :=
  unfold bind at 1 in Hr; rewrite MakeGuid_run in Hr;
  match type of Hr with context [result ?a =? 0] =>
    destruct (result a =? 0) end;
  cbn [passed] in Hr; discriminate Hr.

(** The case of [Impl_ctor_first_start] for the second implementation of
    part_000. *)
Ltac part_000_first_start Hr :=
  unfold bind at 1 in Hr; rewrite MakeGuid_run in Hr;
  match type of Hr with context [result ?a =? 0] =>
    destruct (result a =? 0) end; [|discriminate Hr];
  cbn [passed] in Hr;
  unfold bind at 1 in Hr; rewrite MakeGuid_run in Hr;
  match type of Hr with context [result ?a =? 0] =>
    destruct (result a =? 0) end; [|discriminate Hr];
  cbn [passed] in Hr;
  unfold bind at 1 in Hr;
  match type of Hr with context [Session_ctor ?a ?b ?c ?d ?e ?f ?g] =>
    let Hs := fresh "Hs" in
    destruct (Session_ctor a b c d e f g) as [[s|e'| | |] t2] eqn:Hs;
    try discriminate Hr;
    apply Session_ctor_first_start in Hs;
    destruct Hs as (blk & rest & Hb & ->)
  end;
  unfold unwinding at 1, bind at 1, Session_EnableProvider in Hr;
  rewrite EnabledProvider_ctor_run in Hr;
  match type of Hr with context [result ?a =? 0] =>
    destruct (result a =? 0) end; [|discriminate Hr];
  cbn [passed] in Hr;
  unfold unwinding, bind in Hr; rewrite Provider_ctor_run in Hr;
  match type of Hr with context [result ?a =? 0] =>
    destruct (result a =? 0) end; [|discriminate Hr];
  cbn [passed] in Hr;
  unfold ret in Hr; inversion Hr; subst;
  match goal with
  | Hb : EventTracePropertiesWithBuffers_ctor _ _ _ _ = Returned ?blk |- _ =>
      exists blk; split; [reflexivity|]; apply (packer_Guid _ _ _ _ _ Hb)
  end.

(** In a construction that returns, the control block handed to the first
    start call carries the provider's identity in src/Log/MiniEtwLog.h and
    zero in part_000. *)
Lemma Impl_ctor_first_start (v : Variant) (sessionName outputFolder : string)
    (bufferSize : Z) (P : Platform) (self : Impl) (t' : Trace) :
  Impl_ctor v sessionName outputFolder bufferSize P [] = (Returned self, t') ->
  exists blk,
    first_StartTraceA t' = Some blk /\
    Wnode_Guid (Wnode (Properties blk)) =
      match v with
      | MiniEtwLog_h => m_providerId self
      | part_000_a | part_000_b => 0
      end.
Proof.
  intros Hr.
  destruct v; unfold Impl_ctor in Hr.
  - unfold bind at 1 in Hr. rewrite MakeGuid_run in Hr.
    destruct (result (respond P [] CoCreateGuid) =? 0); [|discriminate Hr].
    cbn [passed] in Hr.
    unfold bind at 1 in Hr. rewrite Provider_ctor_run in Hr.
    match type of Hr with context [result ?a =? 0] =>
      destruct (result a =? 0) end; [|discriminate Hr].
    cbn [passed] in Hr.
    unfold unwinding at 1, bind at 1 in Hr.
    rewrite MakeDirectories_run in Hr.
    match type of Hr with context [status ?a =? 0] =>
      destruct (status a =? 0) end; [|discriminate Hr].
    cbn [passed] in Hr.
    unfold bind at 1 in Hr.
    match type of Hr with context [Session_ctor ?a ?b ?c ?d ?e ?f ?g] =>
      destruct (Session_ctor a b c d e f g) as [[s|e'| | |] t2] eqn:Hs
    end; try discriminate Hr.
    apply Session_ctor_first_start in Hs. destruct Hs as (blk & rest & Hb & ->).
    unfold unwinding, bind, Session_EnableProvider in Hr.
    rewrite EnabledProvider_ctor_run in Hr.
    match type of Hr with context [result ?a =? 0] =>
      destruct (result a =? 0) end; [|discriminate Hr].
    cbn [passed] in Hr.
    unfold ret in Hr. inversion Hr; subst. cbn [m_providerId].
    exists blk. split; [reflexivity|].
    apply (packer_Guid _ _ _ _ _ Hb).
  - part_000_a_no_return Hr.
  - part_000_first_start Hr.
Qed.

(** C9: the packer of either implementation of part_000 does not depend on
    its [sessionId] argument and leaves the identity field of every block
    it returns zero; the packer of src/Log/MiniEtwLog.h stores the
    argument there.  In a construction that returns, the block handed to
    the first start call so carries zero in part_000 and the provider's
    identity in src/Log/MiniEtwLog.h. *)
Theorem C9_identity_field :
  (forall v sessionId sessionId' bufferSize logFilePath,
     v <> MiniEtwLog_h ->
     EventTracePropertiesWithBuffers_ctor v sessionId bufferSize logFilePath
       = EventTracePropertiesWithBuffers_ctor v sessionId' bufferSize
           logFilePath) /\
  (forall v sessionId bufferSize logFilePath blk,
     EventTracePropertiesWithBuffers_ctor v sessionId bufferSize logFilePath
       = Returned blk ->
     Wnode_Guid (Wnode (Properties blk)) =
       match v with
       | MiniEtwLog_h => sessionId
       | part_000_a | part_000_b => 0
       end) /\
  (forall v sessionName outputFolder bufferSize P self t',
     Impl_ctor v sessionName outputFolder bufferSize P []
       = (Returned self, t') ->
     exists blk,
       first_StartTraceA t' = Some blk /\
       Wnode_Guid (Wnode (Properties blk)) =
         match v with
         | MiniEtwLog_h => m_providerId self
         | part_000_a | part_000_b => 0
         end).
Proof.
  split; [|split].
  - intros v sessionId sessionId' bufferSize logFilePath Hv.
    destruct v; [contradiction|reflexivity|reflexivity].
  - apply packer_Guid.
  - apply Impl_ctor_first_start.
Qed.

Lemma C9_identity_field_witness :
  (exists blk,
     EventTracePropertiesWithBuffers_ctor part_000_a 9 4 "out\log.etl"
       = Returned blk /\
     Wnode_Guid (Wnode (Properties blk)) = 0) /\
  (exists self t' blk,
     Impl_ctor MiniEtwLog_h "Mini logger" "out" 4 quiet_platform []
       = (Returned self, t') /\
     first_StartTraceA t' = Some blk /\
     Wnode_Guid (Wnode (Properties blk)) = m_providerId self) /\
  (exists self t' blk,
     Impl_ctor part_000_b "Mini logger" "out" 4 quiet_platform []
       = (Returned self, t') /\
     m_sessionId self = Some 1 /\
     first_StartTraceA t' = Some blk /\
     Wnode_Guid (Wnode (Properties blk)) = 0).
Proof.
  destruct C9_identity_field as (_ & Hguid & Hfirst).
  split; [|split].
  - eexists. split; [reflexivity|].
    apply (Hguid part_000_a 9 4 "out\log.etl"%string). reflexivity.
  - destruct (Hfirst MiniEtwLog_h "Mini logger"%string "out"%string 4
                quiet_platform _ _ eq_refl) as (blk & H1 & H2).
    do 3 eexists. split; [reflexivity|]. split; [exact H1 | exact H2].
  - destruct (Hfirst part_000_b "Mini logger"%string "out"%string 4
                quiet_platform _ _ eq_refl) as (blk & H1 & H2).
    do 3 eexists. split; [reflexivity|]. split; [reflexivity|].
    split; [exact H1 | exact H2].
Defined.

(** ** Moved-from facades (src/Log/MiniEtwLog.h) *)

(** Emitting through a live facade never dereferences a null pointer. *)
Lemma MiniLog_call_live (v : Variant) (self : Impl) (message : span)
    (P : Platform) (t : Trace) :
  fst (MiniLog_call v {| m_impl := Some self |} message P t) <> NullDeref.
Proof.
  unfold MiniLog_call. cbn [m_impl]. rewrite Write_run. cbn [fst].
  destruct (result (respond P t (write_call self message)) =? 0);
    [destruct v|]; discriminate.
Qed.

(** Assigning a facade to itself keeps its implementation: [release]
    empties the object and [reset] fills it again. *)
Lemma MiniLog_move_assign_self (objs : gmap nat MiniLog) (self : nat)
    (o : MiniLog) (P : Platform) (t : Trace) :
  objs !! self = Some o ->
  MiniLog_move_assign objs self self P t
    = (Returned (<[self := o]> objs), t).
Proof.
  intros Ho. unfold MiniLog_move_assign. rewrite Ho.
  rewrite lookup_insert_eq. cbn [m_impl]. unfold ret.
  rewrite insert_insert_eq. destruct o. reflexivity.
Qed.

(** C10: in src/Log/MiniEtwLog.h a facade can be move-constructed and
    move-assigned.  After the construction of a new object from [other],
    and after the assignment of [other] to a different object, [other]
    holds a null implementation pointer and the target holds the pointer
    [other] had.  Emitting through a facade with a null pointer
    dereferences it, without any platform call, while emitting through a
    live facade does not; destroying a facade with a null pointer returns
    normally without any platform call. *)
Theorem C10_moved_from (objs : gmap nat MiniLog) (self other : nat)
    (o : MiniLog) (P : Platform) (t : Trace) :
  objs !! other = Some o ->
  (objs !! self = None ->
   MiniLog_move_ctor objs self other !! other = Some {| m_impl := None |} /\
   MiniLog_move_ctor objs self other !! self
     = Some {| m_impl := m_impl o |}) /\
  (forall s : MiniLog,
     objs !! self = Some s -> self <> other ->
     exists objs',
       MiniLog_move_assign objs self other P t =
         (Returned objs',
          match m_impl s with
          | Some old =>
              (t ++ [disable_call old; stop_call old; unregister_call old])%list
          | None => t
          end) /\
       objs' !! other = Some {| m_impl := None |} /\
       objs' !! self = Some {| m_impl := m_impl o |}) /\
  (forall message : span,
     MiniLog_call MiniEtwLog_h {| m_impl := None |} message P t
       = (NullDeref, t)) /\
  (forall (live : Impl) (message : span),
     fst (MiniLog_call MiniEtwLog_h {| m_impl := Some live |} message P t)
       <> NullDeref) /\
  MiniLog_dtor MiniEtwLog_h {| m_impl := None |} P t = (Returned tt, t).
Proof.
  intros Ho. split; [|split; [|split; [|split]]].
  - intros Hfresh.
    assert (Hne : self <> other) by (intros ->; congruence).
    unfold MiniLog_move_ctor. rewrite Ho. split.
    + rewrite lookup_insert_ne by exact Hne. apply lookup_insert_eq.
    + apply lookup_insert_eq.
  - intros s Hs Hne. unfold MiniLog_move_assign. rewrite Ho.
    rewrite lookup_insert_ne by (intros Heq; apply Hne; symmetry; exact Heq).
    rewrite Hs.
    eexists. split; [|split].
    + destruct (m_impl s) as [old|].
      * unfold bind. rewrite Impl_dtor_run. reflexivity.
      * reflexivity.
    + rewrite lookup_insert_ne by exact Hne. apply lookup_insert_eq.
    + apply lookup_insert_eq.
  - intros message. reflexivity.
  - intros live message. apply MiniLog_call_live.
  - reflexivity.
Qed.

Lemma C10_moved_from_witness :
  two_facades !! 0%nat = Some {| m_impl := Some sample_impl |} /\
  MiniLog_move_ctor two_facades 2 0 !! 0%nat = Some {| m_impl := None |} /\
  (exists objs',
     MiniLog_move_assign two_facades 1 0 quiet_platform []
       = (Returned objs', []) /\
     objs' !! 0%nat = Some {| m_impl := None |} /\
     objs' !! 1%nat = Some {| m_impl := Some sample_impl |}) /\
  MiniLog_call MiniEtwLog_h {| m_impl := None |}
    {| span_data := 4096; span_size := 13 |} quiet_platform []
    = (NullDeref, []).
Proof.
  assert (H0 : two_facades !! 0%nat = Some {| m_impl := Some sample_impl |})
    by reflexivity.
  split; [exact H0|].
  destruct (C10_moved_from two_facades 2 0 _ quiet_platform [] H0)
    as (Hctor & _ & Hcall & _).
  destruct (C10_moved_from two_facades 1 0 _ quiet_platform [] H0)
    as (_ & Hassign & _).
  split; [apply Hctor; reflexivity|].
  split; [|apply Hcall].
  apply (Hassign {| m_impl := None |}); [reflexivity | discriminate].
Defined.

(** * Further properties of the code *)

(** ** The buffers of the control block *)

Lemma length_zeros (n : nat) : List.length (zeros n) = n.
Proof. apply repeat_length. Qed.

Lemma length_copy_into (src dst : list ascii) :
  (List.length src <= List.length dst)%nat ->
  List.length (copy_into src dst) = List.length dst.
Proof.
  intros H. unfold copy_into.
  rewrite length_app, length_skipn. lia.
Qed.

Lemma length_list_ascii_of_string (s : string) :
  List.length (list_ascii_of_string s) = String.length s.
Proof.
  induction s as [|c s IH]; cbn; [reflexivity | rewrite IH; reflexivity].
Qed.

Lemma skipn_zeros (n m : nat) : skipn n (zeros m) = zeros (m - n).
Proof.
  revert m. induction n as [|n IH]; intros m.
  - rewrite Nat.sub_0_r. reflexivity.
  - destruct m as [|m]; [reflexivity|]. cbn. apply IH.
Qed.

(** The packer's block, field by field. *)
Lemma packer_block (v : Variant) (sessionId : GUID) (bufferSize : Z)
    (logFilePath : string) (blk : EventTracePropertiesWithBuffers) :
  EventTracePropertiesWithBuffers_ctor v sessionId bufferSize logFilePath
    = Returned blk ->
  (String.length logFilePath <= LogFilePath_extent)%nat /\
  SessionName blk = zeros SessionName_extent /\
  LogFilePath blk =
    (list_ascii_of_string logFilePath
       ++ zeros (LogFilePath_extent - String.length logFilePath))%list.
Proof.
  unfold EventTracePropertiesWithBuffers_ctor, SetLogFilePath.
  destruct (Nat.leb_spec (String.length logFilePath) LogFilePath_extent)
    as [Hle|Hgt]; [|discriminate].
  intros H. inversion H; subst; clear H. cbn [SessionName LogFilePath].
  split; [exact Hle|]. split; [reflexivity|].
  unfold copy_into.
  rewrite length_list_ascii_of_string, skipn_zeros. reflexivity.
Qed.

(** ** Reading the path back *)

Lemma c_str_terminated (l rest : list ascii) :
  forallb nonzero l = true ->
  read_c_string (l ++ zero :: rest) = string_of_list_ascii l.
Proof.
  unfold read_c_string.
  induction l as [|c l IH]; intros H.
  - reflexivity.
  - cbn [forallb] in H. apply andb_prop in H as [Hc Hl].
    cbn [app string_of_list_ascii c_str].
    unfold nonzero in Hc. apply negb_true_iff in Hc. rewrite Hc.
    rewrite (IH Hl). reflexivity.
Qed.

Lemma c_str_unterminated (l : list ascii) :
  forallb nonzero l = true ->
  read_c_string l = string_of_list_ascii l.
Proof.
  unfold read_c_string.
  induction l as [|c l IH]; intros H.
  - reflexivity.
  - cbn [forallb] in H. apply andb_prop in H as [Hc Hl].
    cbn [string_of_list_ascii c_str].
    unfold nonzero in Hc. apply negb_true_iff in Hc. rewrite Hc.
    rewrite (IH Hl). reflexivity.
Qed.

Lemma string_of_list_ascii_app (l1 l2 : list ascii) :
  string_of_list_ascii (l1 ++ l2) =
    String.append (string_of_list_ascii l1) (string_of_list_ascii l2).
Proof.
  induction l1 as [|c l1 IH]; cbn; [reflexivity | rewrite IH; reflexivity].
Qed.

Lemma zeros_succ (n : nat) : zeros (S n) = zero :: zeros n.
Proof. reflexivity. Qed.

Lemma forallb_skipn {A} (f : A -> bool) (n : nat) (l : list A) :
  forallb f l = true -> forallb f (skipn n l) = true.
Proof.
  revert l. induction n as [|n IH]; intros l H; [exact H|].
  destruct l as [|a l]; [reflexivity|].
  cbn [forallb] in H. apply andb_prop in H as [_ Hl]. cbn. apply IH, Hl.
Qed.

(** The path region of a packed block, read as a zero-terminated
    string. *)
Lemma packed_path_read (v : Variant) (sessionId : GUID) (bufferSize : Z)
    (logFilePath : string) (blk : EventTracePropertiesWithBuffers) :
  EventTracePropertiesWithBuffers_ctor v sessionId bufferSize logFilePath
    = Returned blk ->
  (String.length logFilePath < LogFilePath_extent)%nat ->
  no_NUL logFilePath = true ->
  read_c_string (LogFilePath blk) = logFilePath.
Proof.
  intros H Hlt Hnul.
  pose proof (packer_block _ _ _ _ _ H) as (_ & _ & Hpath).
  rewrite Hpath.
  replace (LogFilePath_extent - String.length logFilePath)%nat
    with (S (LogFilePath_extent - String.length logFilePath - 1)) by lia.
  rewrite zeros_succ, c_str_terminated by exact Hnul.
  apply string_of_list_ascii_of_string.
Qed.

(** X2: a path without terminator characters and shorter than the region
    is read back unchanged, as a zero-terminated string, from the path
    region of the block the packer returns. *)
Theorem packer_path_round_trip (v : Variant) (sessionId : GUID)
    (bufferSize : Z) (logFilePath : string)
    (blk : EventTracePropertiesWithBuffers) :
  EventTracePropertiesWithBuffers_ctor v sessionId bufferSize logFilePath
    = Returned blk ->
  (String.length logFilePath < LogFilePath_extent)%nat ->
  no_NUL logFilePath = true ->
  read_c_string (LogFilePath blk) = logFilePath.
Proof.
  intros H Hlt Hnul. exact (packed_path_read _ _ _ _ _ H Hlt Hnul).
Qed.

Lemma packer_path_round_trip_witness :
  read_c_string (LogFilePath sample_block) = "out\log.etl"%string.
Proof.
  apply (packer_path_round_trip MiniEtwLog_h 9 4 "out\log.etl" sample_block).
  - reflexivity.
  - vm_compute. lia.
  - reflexivity.
Defined.

(** X3: a path of exactly 1024 characters passes the assertion of the
    packer, and the path region of the block then holds no terminator at
    all: the region is the path and nothing else. *)
Theorem packer_path_full_region (v : Variant) (sessionId : GUID)
    (bufferSize : Z) (logFilePath : string) :
  String.length logFilePath = LogFilePath_extent ->
  no_NUL logFilePath = true ->
  exists blk,
    EventTracePropertiesWithBuffers_ctor v sessionId bufferSize logFilePath
      = Returned blk /\
    LogFilePath blk = list_ascii_of_string logFilePath /\
    forallb nonzero (LogFilePath blk) = true.
Proof.
  intros Hlen Hnul.
  destruct (packer_returns v sessionId bufferSize logFilePath) as [blk H];
    [lia|].
  exists blk. split; [exact H|].
  pose proof (packer_block _ _ _ _ _ H) as (_ & _ & Hpath).
  rewrite Hlen, Nat.sub_diag in Hpath. cbn [zeros repeat] in Hpath.
  rewrite app_nil_r in Hpath. rewrite Hpath.
  split; [reflexivity | exact Hnul].
Qed.

Lemma packer_path_full_region_witness :
  exists blk,
    EventTracePropertiesWithBuffers_ctor MiniEtwLog_h 9 4 full_path
      = Returned blk /\
    LogFilePath blk = list_ascii_of_string full_path /\
    forallb nonzero (LogFilePath blk) = true.
Proof.
  apply (packer_path_full_region MiniEtwLog_h 9 4 full_path).
  - vm_compute. reflexivity.
  - vm_compute. reflexivity.
Defined.

(** X4: the mutator overwrites the first bytes of the path region and
    leaves the rest as it was.  After a path [first] was packed, setting a
    path [second] makes a zero-terminated read of the region return
    [second] followed by what [first] had beyond the length of
    [second]. *)
Theorem SetLogFilePath_keeps_tail (v : Variant) (sessionId : GUID)
    (bufferSize : Z) (first second : string)
    (blk blk' : EventTracePropertiesWithBuffers) :
  EventTracePropertiesWithBuffers_ctor v sessionId bufferSize first
    = Returned blk ->
  SetLogFilePath blk second = Returned blk' ->
  (String.length first < LogFilePath_extent)%nat ->
  (String.length second < LogFilePath_extent)%nat ->
  no_NUL first = true ->
  no_NUL second = true ->
  Properties blk' = Properties blk /\
  List.length (LogFilePath blk') = LogFilePath_extent /\
  read_c_string (LogFilePath blk') =
    String.append second
      (string_of_list_ascii
         (skipn (String.length second) (list_ascii_of_string first))).
Proof.
  intros H Hset Hlt1 Hlt2 Hn1 Hn2.
  pose proof (packer_block _ _ _ _ _ H) as (_ & _ & Hpath).
  split; [exact (SetLogFilePath_Properties _ _ _ Hset)|].
  unfold SetLogFilePath in Hset.
  destruct (Nat.leb_spec (String.length second) LogFilePath_extent)
    as [Hle|Hgt]; [|discriminate].
  inversion Hset; subst blk'; clear Hset. cbn [LogFilePath].
  split.
  - rewrite length_copy_into.
    + rewrite Hpath, length_app, length_zeros, length_list_ascii_of_string.
      lia.
    + rewrite Hpath, length_app, length_zeros,
        !length_list_ascii_of_string. lia.
  - unfold copy_into. rewrite Hpath, skipn_app, skipn_zeros, app_assoc.
    rewrite !length_list_ascii_of_string.
    replace (LogFilePath_extent - String.length first
             - (String.length second - String.length first))%nat
      with (S (LogFilePath_extent - String.length first
               - (String.length second - String.length first) - 1))
      by lia.
    rewrite zeros_succ, c_str_terminated.
    + rewrite string_of_list_ascii_app, string_of_list_ascii_of_string.
      reflexivity.
    + rewrite forallb_app. apply andb_true_intro. split; [exact Hn2|].
      apply forallb_skipn. exact Hn1.
Qed.

Lemma SetLogFilePath_keeps_tail_witness :
  exists blk',
    SetLogFilePath sample_block "tmp" = Returned blk' /\
    read_c_string (LogFilePath blk') = "tmp\log.etl"%string.
Proof.
  eexists. split; [reflexivity|].
  apply (SetLogFilePath_keeps_tail MiniEtwLog_h 9 4 "out\log.etl" "tmp"
           sample_block); try reflexivity; vm_compute; lia.
Defined.

(** ** More on the verifier *)

Lemma to_ULONG_to_int (z : Z) : to_ULONG (to_int z) = to_ULONG z.
Proof.
  unfold to_int, to_ULONG.
  destruct (z mod 2 ^ 32 <? 2 ^ 31).
  - apply Z.mod_mod. lia.
  - rewrite <- (Z.mod_add (z mod 2 ^ 32 - 2 ^ 32) 1 (2 ^ 32)) by lia.
    replace (z mod 2 ^ 32 - 2 ^ 32 + 1 * 2 ^ 32) with (z mod 2 ^ 32) by lia.
    apply Z.mod_mod. lia.
Qed.

Lemma to_int_range (z : Z) : - 2 ^ 31 <= to_int z < 2 ^ 31.
Proof.
  unfold to_int.
  pose proof (Z.mod_pos_bound z (2 ^ 32) ltac:(lia)) as Hb.
  destruct (Z.ltb_spec (z mod 2 ^ 32) (2 ^ 31)); lia.
Qed.


(** X6: whichever form throws, the code of the exception is the status
    read as a signed 32-bit integer: it lies in the [int] range, converts
    back to the status, and is negative exactly for the statuses that are
    not success codes. *)
Theorem verifier_code_round_trip (P : Platform) (hresult : Z)
    (additionalInfo : string) (expectedGoodResult : Z)
    (expectation : option Z) (err : system_error) :
  0 <= hresult < 2 ^ 32 ->
  VerifyHResult_u32 P hresult additionalInfo expectedGoodResult = Thrown err
  \/ VerifyHResult_opt P hresult additionalInfo expectation = Thrown err ->
  - 2 ^ 31 <= code err < 2 ^ 31 /\
  to_ULONG (code err) = hresult /\
  (code err < 0 <-> SUCCEEDED hresult = false).
Proof.
  intros Hr Hthrown.
  assert (Herr : err = make_system_error P hresult additionalInfo).
  { destruct Hthrown as [H|H].
    - rewrite VerifyHResult_u32_spec in H.
      destruct (hresult =? expectedGoodResult); inversion H; reflexivity.
    - rewrite VerifyHResult_opt_spec in H.
      destruct (SUCCEEDED hresult && _); inversion H; reflexivity. }
  subst err.
  destruct (make_system_error_spec P hresult additionalInfo) as [Hc _].
  rewrite Hc. split; [apply to_int_range|].
  split; [rewrite to_ULONG_to_int; apply to_ULONG_small; exact Hr|].
  unfold SUCCEEDED. split.
  - intros Hneg. apply Z.leb_gt. exact Hneg.
  - intros Hf. apply Z.leb_gt in Hf. exact Hf.
Qed.

Lemma verifier_code_round_trip_witness :
  exists err,
    VerifyHResult_u32 quiet_platform 0x80004005 "StartTrace" 0 = Thrown err /\
    code err = -2147467259 /\
    to_ULONG (code err) = 0x80004005.
Proof.
  eexists. split; [reflexivity|].
  split; [reflexivity|].
  apply (verifier_code_round_trip quiet_platform 0x80004005 "StartTrace" 0
           None).
  - lia.
  - left. reflexivity.
Defined.

(** X7: without an expected value the optional form throws exactly for
    the statuses from 2^31 on.  For a status below 2^31 it does not
    throw, also for the nonzero Win32 error codes that the plain form
    expecting [ERROR_SUCCESS] rejects: it returns, which is undefined for
    a function declared [noreturn]. *)
Theorem verifier_predicate_form (P : Platform) (hresult : Z)
    (additionalInfo : string) :
  0 <= hresult < 2 ^ 32 ->
  (hresult < 2 ^ 31 ->
   VerifyHResult_opt P hresult additionalInfo None = Undefined) /\
  (0 < hresult ->
   VerifyHResult_u32 P hresult additionalInfo ERROR_SUCCESS
     = Thrown (make_system_error P hresult additionalInfo)) /\
  (2 ^ 31 <= hresult ->
   VerifyHResult_opt P hresult additionalInfo None
     = Thrown (make_system_error P hresult additionalInfo)).
Proof.
  intros Hr.
  rewrite VerifyHResult_opt_spec, VerifyHResult_u32_spec, SUCCEEDED_spec.
  rewrite Z.mod_small by exact Hr. rewrite andb_true_r.
  split; [|split].
  - intros Hlt. destruct (Z.ltb_spec hresult (2 ^ 31)); [reflexivity|lia].
  - intros Hpos. unfold ERROR_SUCCESS.
    destruct (Z.eqb_spec hresult 0); [lia|reflexivity].
  - intros Hge. destruct (Z.ltb_spec hresult (2 ^ 31)); [lia|reflexivity].
Qed.

Lemma verifier_predicate_form_witness :
  VerifyHResult_opt quiet_platform ERROR_ALREADY_EXISTS "StartTrace" None
    = Undefined /\
  VerifyHResult_u32 quiet_platform ERROR_ALREADY_EXISTS "StartTrace"
    ERROR_SUCCESS
    = Thrown {| code := 183; what_arg := "StartTrace" |}.
Proof.
  destruct (verifier_predicate_form quiet_platform ERROR_ALREADY_EXISTS
              "StartTrace") as (Hpass & Hrej & _).
  - unfold ERROR_ALREADY_EXISTS. lia.
  - split.
    + apply Hpass. unfold ERROR_ALREADY_EXISTS. lia.
    + rewrite Hrej by (unfold ERROR_ALREADY_EXISTS; lia). reflexivity.
Defined.

(** ** The calls of the session constructor *)

(** X8: whatever the platform answers, the session constructor issues
    start and stop calls only, at most two starts and at most one stop; it
    issues none when an assertion fails; and it returns a session only
    after a start call answered with success, which is then its last call
    and the one that wrote the handle the session holds. *)
Theorem Session_ctor_calls (v : Variant) (sessionId : GUID)
    (sessionName logFileName : string) (bufferSize : Z) (P : Platform)
    (t : Trace) :
  let r := Session_ctor v sessionId sessionName logFileName bufferSize P t in
  exists made,
    snd r = (t ++ made)%list /\
    forallb (fun c => is_start c || is_stop c) made = true /\
    (count is_start made <= 2)%nat /\
    (count is_stop made <= 1)%nat /\
    (fst r = AssertFailed -> made = []) /\
    (forall s, fst r = Returned s ->
       exists h n b before,
         made = (before ++ [StartTraceA h n b])%list /\
         result (respond P (t ++ before) (StartTraceA h n b))
           = ERROR_SUCCESS /\
         Session_Handle s = out (respond P (t ++ before) (StartTraceA h n b))).
Proof.
  intros r. subst r. rewrite Session_ctor_run.
  destruct (EventTracePropertiesWithBuffers_ctor v sessionId bufferSize
              logFileName) as [blk|e| | |].
  2-5: exists []; cbn [fst snd]; rewrite app_nil_r;
       repeat split; try reflexivity; try (cbn; lia);
       intros; discriminate.
  unfold started.
  destruct (strlen sessionName <=? SessionName_extent)%nat.
  2: { exists []. cbn [fst snd]. rewrite app_nil_r.
       repeat split; try reflexivity; try (cbn; lia).
       intros; discriminate. }
  destruct (result (answer1 P t sessionName blk) =? ERROR_ALREADY_EXISTS).
  - eexists. cbn [fst snd]. split; [reflexivity|].
    split; [reflexivity|]. split; [cbn; lia|]. split; [cbn; lia|].
    split.
    + unfold verified.
      destruct (result (answer3 P t sessionName blk) =? ERROR_SUCCESS);
        [destruct v|]; discriminate.
    + intros s Hs. unfold verified in Hs.
      destruct (Z.eqb_spec (result (answer3 P t sessionName blk))
                           ERROR_SUCCESS) as [H0|]; [|discriminate Hs].
      destruct v; inversion Hs; subst s; clear Hs;
        exists (out (answer1 P t sessionName blk)), (c_str sessionName),
          (written (answer2 P t sessionName blk)
             (written (answer1 P t sessionName blk) blk)),
          [start1 sessionName blk; stop2 P t sessionName blk];
        (split; [reflexivity|]); (split; [exact H0 | reflexivity]).
  - eexists. cbn [fst snd]. split; [reflexivity|].
    split; [reflexivity|]. split; [cbn; lia|]. split; [cbn; lia|].
    split.
    + unfold verified.
      destruct (result (answer1 P t sessionName blk) =? ERROR_SUCCESS);
        [destruct v|]; discriminate.
    + intros s Hs. unfold verified in Hs.
      destruct (Z.eqb_spec (result (answer1 P t sessionName blk))
                           ERROR_SUCCESS) as [H0|]; [|discriminate Hs].
      destruct v; inversion Hs; subst s; clear Hs;
        exists 0, (c_str sessionName), blk, [];
        rewrite app_nil_r; (split; [reflexivity|]);
        (split; [exact H0 | reflexivity]).
Qed.

(** X9: when the first start call reports anything but a name collision,
    it is the only call of the session constructor, which throws the
    verifier's failure when the call reported anything but success; when
    it reported success the constructor returns the session in
    MiniEtwLog.h and in the second implementation of part_000, and in the
    first implementation of part_000 its [noreturn] verifier returns,
    which is undefined. *)
Theorem Session_ctor_single_start (v : Variant) (P : Platform) (t : Trace)
    (sessionId : GUID) (sessionName logFileName : string) (bufferSize : Z)
    (blk : EventTracePropertiesWithBuffers) :
  EventTracePropertiesWithBuffers_ctor v sessionId bufferSize logFileName
    = Returned blk ->
  (strlen sessionName <= SessionName_extent)%nat ->
  let first := respond P t (StartTraceA 0 (c_str sessionName) blk) in
  result first <> ERROR_ALREADY_EXISTS ->
  Session_ctor v sessionId sessionName logFileName bufferSize P t =
    (if result first =? ERROR_SUCCESS
     then match v with
          | MiniEtwLog_h | part_000_b =>
              Returned {| Session_Handle := out first;
                          m_properties := written first blk |}
          | part_000_a => Undefined
          end
     else Thrown (make_system_error P (result first) "StartTrace"),
     (t ++ [StartTraceA 0 (c_str sessionName) blk])%list).
Proof.
  intros Hblk Hname first Hne.
  rewrite Session_ctor_run, Hblk. unfold started.
  destruct (Nat.leb_spec (strlen sessionName) SessionName_extent); [|lia].
  fold (start1 sessionName blk) in first.
  fold (answer1 P t sessionName blk) in first. subst first.
  destruct (Z.eqb_spec (result (answer1 P t sessionName blk))
                       ERROR_ALREADY_EXISTS); [contradiction|].
  unfold verified.
  destruct (result (answer1 P t sessionName blk) =? ERROR_SUCCESS);
    [destruct v|]; reflexivity.
Qed.

Lemma Session_ctor_single_start_witness :
  Session_ctor MiniEtwLog_h 9 "Mini logger" "out\log.etl" 4
    quiet_platform [] =
    (Returned {| Session_Handle := 1; m_properties := sample_block |},
     [StartTraceA 0 "Mini logger" sample_block]).
Proof.
  apply (Session_ctor_single_start MiniEtwLog_h quiet_platform [] 9
           "Mini logger" "out\log.etl" 4 sample_block).
  - reflexivity.
  - vm_compute. lia.
  - vm_compute. discriminate.
Defined.

(** ** Accounting of what a trace leaves open *)

Lemma replay_app (P : Platform) (done t l : Trace) (o : Open) :
  replay P done (t ++ l) o = replay P (done ++ t) l (replay P done t o).
Proof.
  revert done o. induction t as [|c t IH]; intros done o.
  - rewrite app_nil_r. reflexivity.
  - cbn [app replay]. rewrite IH, <- app_assoc. reflexivity.
Qed.

Lemma opened_snoc (P : Platform) (t : Trace) (c : Call) :
  opened P (t ++ [c]) = account c (respond P t c) (opened P t).
Proof. unfold opened. rewrite replay_app. reflexivity. Qed.

Lemma remove_one_head_Z (h : Z) (l : list Z) :
  remove_one Z.eqb h (h :: l) = l.
Proof. cbn. rewrite Z.eqb_refl. reflexivity. Qed.

Lemma remove_one_head_enablement (e : Z * GUID) (l : list (Z * GUID)) :
  remove_one enablement_eqb e (e :: l) = l.
Proof.
  cbn. unfold enablement_eqb. rewrite !Z.eqb_refl. reflexivity.
Qed.

Lemma Open_eta (o : Open) :
  {| registrations := registrations o; sessions := sessions o;
     enablements := enablements o |} = o.
Proof. destruct o. reflexivity. Qed.

(** The session a constructor returns is the one handle it leaves open;
    a constructor that throws or fails an assertion leaves none. *)
Lemma Session_ctor_account (v : Variant) (sessionId : GUID)
    (sessionName logFileName : string) (bufferSize : Z) (P : Platform)
    (t t' : Trace) (r : Outcome Session) :
  Session_ctor v sessionId sessionName logFileName bufferSize P t = (r, t') ->
  match r with
  | Returned s =>
      opened P t' =
        {| registrations := registrations (opened P t);
           sessions := Session_Handle s :: sessions (opened P t);
           enablements := enablements (opened P t) |}
  | Undefined => True
  | _ => opened P t' = opened P t
  end.
Proof.
  rewrite Session_ctor_run.
  destruct (EventTracePropertiesWithBuffers_ctor v sessionId bufferSize
              logFileName) as [blk|e| | |];
    try (intros H; inversion H; first [reflexivity | exact I]).
  unfold started.
  destruct (strlen sessionName <=? SessionName_extent)%nat;
    [|intros H; inversion H; reflexivity].
  destruct (Z.eqb_spec (result (answer1 P t sessionName blk))
                       ERROR_ALREADY_EXISTS) as [Hc|Hc].
  - intros H. inversion H; subst r t'; clear H.
    change (t ++ [start1 sessionName blk; stop2 P t sessionName blk;
                  start3 P t sessionName blk])%list
      with (t ++ [start1 sessionName blk; stop2 P t sessionName blk]
              ++ [start3 P t sessionName blk])%list.
    rewrite app_assoc, opened_snoc. fold (answer3 P t sessionName blk).
    change (t ++ [start1 sessionName blk; stop2 P t sessionName blk])%list
      with (t ++ [start1 sessionName blk]
              ++ [stop2 P t sessionName blk])%list.
    rewrite app_assoc, opened_snoc, opened_snoc.
    fold (answer1 P t sessionName blk).
    cbn [account start1 stop2]. rewrite Hc. cbn [Z.eqb ERROR_ALREADY_EXISTS
      ERROR_SUCCESS Pos.eqb].
    unfold verified, start3. cbn [account].
    destruct (result (answer3 P t sessionName blk) =? ERROR_SUCCESS);
      [destruct v|]; first [reflexivity | exact I].
  - intros H. inversion H; subst r t'; clear H.
    rewrite opened_snoc. fold (answer1 P t sessionName blk).
    unfold verified, start1. cbn [account].
    destruct (result (answer1 P t sessionName blk) =? ERROR_SUCCESS);
      [destruct v|]; first [reflexivity | exact I].
Qed.

(** ** Construction that returns *)

(** The calls of a session constructor that returns. *)
Lemma Session_ctor_returned (v : Variant) (sessionId : GUID)
    (sessionName logFileName : string) (bufferSize : Z) (P : Platform)
    (t t' : Trace) (s : Session) :
  Session_ctor v sessionId sessionName logFileName bufferSize P t
    = (Returned s, t') ->
  exists blk rest,
    EventTracePropertiesWithBuffers_ctor v sessionId bufferSize logFileName
      = Returned blk /\
    t' = (t ++ StartTraceA 0 (c_str sessionName) blk :: rest)%list /\
    (map call_name rest = [] \/
     map call_name rest = ["ControlTraceA"; "StartTraceA"]%string).
Proof.
  rewrite Session_ctor_run.
  destruct (EventTracePropertiesWithBuffers_ctor v sessionId bufferSize
              logFileName) as [blk|e| | |]; try discriminate.
  unfold started.
  destruct (strlen sessionName <=? SessionName_extent)%nat; [|discriminate].
  destruct (result (answer1 P t sessionName blk) =? ERROR_ALREADY_EXISTS);
    intros H; inversion H; subst; exists blk; eexists;
    (split; [reflexivity|]); (split; [reflexivity|]).
  - right. reflexivity.
  - left. reflexivity.
Qed.

Ltac open_success H E :=
  match type of H with context [result ?a =? 0] =>
    destruct (result a =? 0) eqn:E;
    [cbn [passed] in H | discriminate H]
  end.

(** The accounting of a construction that returned, from the accounting
    of its session constructor and the answers to the other calls. *)
Ltac account_returned Hacc :=
  rewrite ?opened_snoc; unfold enable_call;
  cbn [account]; unfold ERROR_SUCCESS;
  repeat match goal with
         | E : (result _ =? 0) = true |- _ =>
             unfold enable_call in E; rewrite E; clear E
         end;
  rewrite ?Hacc; cbn [registrations sessions enablements];
  rewrite ?opened_snoc; cbn [account]; unfold ERROR_SUCCESS;
  repeat match goal with
         | E : (result _ =? 0) = true |- _ => rewrite E; clear E
         end;
  rewrite ?Z.eqb_refl; cbn [registrations sessions enablements];
  unfold holding;
  cbn [m_provider m_session m_enabledProvider Provider_Handle
       SessionHandle EnabledProviderId registrations sessions enablements];
  try reflexivity.

(** The case of [Impl_ctor_returned] for an implementation of part_000. *)
Ltac part_000_returned P t Hr :=
  unfold bind at 1 in Hr; rewrite MakeGuid_run in Hr;
  let Eg := fresh "Eg" in open_success Hr Eg;
  unfold bind at 1 in Hr; rewrite MakeGuid_run in Hr;
  let Eg' := fresh "Eg" in open_success Hr Eg';
  unfold bind at 1 in Hr;
  let Hs := fresh "Hs" in
  let Hacc := fresh "Hacc" in
  let Hopen := fresh "Hopen" in
  let Hb := fresh "Hb" in
  let Hrest := fresh "Hrest" in
  let blk := fresh "blk" in
  let rest := fresh "rest" in
  match type of Hr with context [Session_ctor ?a ?b ?c ?d ?e ?f ?g] =>
    destruct (Session_ctor a b c d e f g) as [[?s|?e'| | |] ?t2] eqn:Hs;
    try discriminate Hr;
    pose proof (Session_ctor_account _ _ _ _ _ _ _ _ _ Hs) as Hacc;
    cbv beta iota in Hacc;
    apply Session_ctor_returned in Hs;
    destruct Hs as (blk & rest & Hb & -> & Hrest);
    unfold unwinding at 1, bind at 1, Session_EnableProvider in Hr;
    rewrite EnabledProvider_ctor_run in Hr;
    let Ee := fresh "Ee" in open_success Hr Ee;
    unfold unwinding, bind in Hr; rewrite Provider_ctor_run in Hr;
    let Ep := fresh "Ep" in open_success Hr Ep;
    unfold ret in Hr;
    match type of Hr with (Returned ?x, ?ln) = _ =>
      assert (Hopen : opened P ln = holding x (opened P t))
        by (clear Hr; account_returned Hacc)
    end;
    inversion Hr; subst; clear Hr;
    eexists; split;
    [ rewrite <- !app_assoc; cbn [app]; reflexivity
    | unfold constructed;
      cbn [m_providerId m_session m_enabledProvider m_provider
           SessionHandle EnabledProviderId Provider_Handle];
      split; [|split; [reflexivity|split; [reflexivity|]]];
      [ exists (out (respond P t CoCreateGuid)), blk, rest;
        split; [exact Hb|]; split; [exact Hrest|]; reflexivity
      | rewrite <- Hopen; f_equal; rewrite <- !app_assoc; reflexivity ] ]
  end.

Lemma Impl_ctor_returned (v : Variant) (sessionName outputFolder : string)
    (bufferSize : Z) (P : Platform) (t t' : Trace) (self : Impl) :
  Impl_ctor v sessionName outputFolder bufferSize P t = (Returned self, t') ->
  exists made,
    t' = (t ++ made)%list /\
    constructed v sessionName outputFolder bufferSize P t self made.
Proof.
  intros Hr.
  destruct v; unfold Impl_ctor in Hr.
  - unfold bind at 1 in Hr. rewrite MakeGuid_run in Hr.
    open_success Hr Eg.
    unfold bind at 1 in Hr. rewrite Provider_ctor_run in Hr.
    open_success Hr Ep.
    unfold unwinding at 1, bind at 1 in Hr.
    rewrite MakeDirectories_run in Hr.
    match type of Hr with context [status ?a =? 0] =>
      destruct (status a =? 0) end; [|discriminate Hr].
    cbn [passed] in Hr.
    unfold bind at 1 in Hr.
    match type of Hr with context [Session_ctor ?a ?b ?c ?d ?e ?f ?g] =>
      destruct (Session_ctor a b c d e f g) as [[s|e'| | |] t2] eqn:Hs
    end; try discriminate Hr.
    pose proof (Session_ctor_account _ _ _ _ _ _ _ _ _ Hs) as Hacc.
    cbv beta iota in Hacc.
    apply Session_ctor_returned in Hs.
    destruct Hs as (blk & rest & Hb & -> & Hrest).
    unfold unwinding, bind, Session_EnableProvider in Hr.
    rewrite EnabledProvider_ctor_run in Hr.
    open_success Hr Ee.
    unfold ret in Hr.
    match type of Hr with (Returned ?x, ?ln) = _ =>
      assert (Hopen : opened P ln = holding x (opened P t))
        by (clear Hr; account_returned Hacc)
    end.
    inversion Hr; subst self t'; clear Hr.
    eexists. split.
    + rewrite <- !app_assoc. cbn [app]. reflexivity.
    + unfold constructed.
      cbn [m_providerId m_session m_enabledProvider m_provider
           SessionHandle EnabledProviderId Provider_Handle].
      split; [|split; [reflexivity|split; [reflexivity|]]].
      * exists (out (respond P t CoCreateGuid)), blk, rest.
        split; [exact Hb|]. split; [exact Hrest|]. reflexivity.
      * rewrite <- Hopen. f_equal. rewrite <- !app_assoc. reflexivity.
  - part_000_a_no_return Hr.
  - part_000_returned P t Hr.
Qed.

(** ** Construction that throws, teardown, and the whole life of a logger *)

(** Rewrites the accounting of an explicit trace down to the accounting of
    its starting point. *)
Ltac account_step :=
  repeat (rewrite opened_snoc; cbn [account]);
  unfold ERROR_SUCCESS, EVENT_TRACE_CONTROL_STOP,
    EVENT_CONTROL_CODE_ENABLE_PROVIDER, EVENT_CONTROL_CODE_DISABLE_PROVIDER
    in *;
  change (1 =? 1) with true; change (0 =? 1) with false;
  change (0 =? 0) with true; cbv iota;
  repeat match goal with
         | E : (result _ =? 0) = _ |- _ => rewrite E
         end;
  cbn [registrations sessions enablements].

Ltac account_trace :=
  account_step;
  repeat match goal with
         | H : opened _ _ = _ |- _ => rewrite H
         end;
  account_step;
  rewrite ?remove_one_head_Z, ?remove_one_head_enablement, ?Open_eta;
  try reflexivity.

Ltac close_thrown Hr :=
  unfold Provider_dtor, Session_dtor, EnabledProvider_dtor, DestroySession,
    bind, call, ret in Hr;
  cbn [snd fst Provider_Handle Session_Handle m_properties
       SessionHandle EnabledProviderId] in Hr;
  first
    [ discriminate Hr
    | inversion Hr; subst; clear Hr; unfold enable_call in *;
      account_trace ].

Ltac open_result H E :=
  match type of H with context [result ?a =? 0] =>
    destruct (result a =? 0) eqn:E;
    [cbn [passed] in H|]
  end.

(** The case of [Impl_ctor_thrown] for an implementation of part_000. *)
Ltac part_000_thrown Hr :=
  unfold bind at 1 in Hr; rewrite MakeGuid_run in Hr;
  let Eg := fresh "Eg" in open_result Hr Eg; [|close_thrown Hr];
  unfold bind at 1 in Hr; rewrite MakeGuid_run in Hr;
  let Eg' := fresh "Eg" in open_result Hr Eg'; [|close_thrown Hr];
  unfold bind at 1 in Hr;
  let Hs := fresh "Hs" in
  match type of Hr with context [Session_ctor ?a ?b ?c ?d ?e ?f ?g] =>
    destruct (Session_ctor a b c d e f g) as [[?s|?e'| | |] ?t2] eqn:Hs
  end;
  apply Session_ctor_account in Hs; cbv beta iota in Hs;
  try solve [close_thrown Hr];
  unfold unwinding at 1, bind at 1, Session_EnableProvider in Hr;
  rewrite EnabledProvider_ctor_run in Hr;
  let Ee := fresh "Ee" in open_result Hr Ee; [|close_thrown Hr];
  unfold unwinding, bind in Hr; rewrite Provider_ctor_run in Hr;
  let Ep := fresh "Ep" in open_result Hr Ep; close_thrown Hr.

Lemma Impl_ctor_thrown (v : Variant) (sessionName outputFolder : string)
    (bufferSize : Z) (P : Platform) (t t' : Trace) (e : system_error) :
  Impl_ctor v sessionName outputFolder bufferSize P t = (Thrown e, t') ->
  opened P t' = opened P t.
Proof.
  intros Hr.
  destruct v; unfold Impl_ctor in Hr.
  - unfold bind at 1 in Hr. rewrite MakeGuid_run in Hr.
    open_result Hr Eg; [|close_thrown Hr].
    unfold bind at 1 in Hr. rewrite Provider_ctor_run in Hr.
    open_result Hr Ep; [|close_thrown Hr].
    unfold unwinding at 1, bind at 1 in Hr.
    rewrite MakeDirectories_run in Hr.
    match type of Hr with context [status ?a =? 0] =>
      destruct (status a =? 0) end; [|close_thrown Hr].
    unfold bind at 1 in Hr.
    match type of Hr with context [Session_ctor ?a ?b ?c ?d ?e ?f ?g] =>
      destruct (Session_ctor a b c d e f g) as [[s|e'| | |] t2] eqn:Hs
    end;
      apply Session_ctor_account in Hs; cbv beta iota in Hs;
      try solve [close_thrown Hr].
    unfold unwinding, bind, Session_EnableProvider in Hr.
    rewrite EnabledProvider_ctor_run in Hr.
    open_result Hr Ee; close_thrown Hr.
  - unfold bind at 1 in Hr. rewrite MakeGuid_run in Hr.
    open_result Hr Eg; [discriminate Hr | close_thrown Hr].
  - part_000_thrown Hr.
Qed.

(** Teardown hands back what the object holds. *)
Lemma Impl_dtor_account (v : Variant) (self : Impl) (P : Platform)
    (t : Trace) (o : Open) :
  opened P t = holding self o ->
  opened P (snd (Impl_dtor v self P t)) = o.
Proof.
  intros H. rewrite Impl_dtor_run. cbn [snd].
  unfold holding in H.
  destruct v;
    match goal with |- opened P (t ++ [?a; ?b; ?c])%list = _ =>
      change (t ++ [a; b; c])%list with (t ++ [a] ++ [b] ++ [c])%list
    end;
    rewrite !app_assoc;
    unfold disable_call, stop_call, unregister_call;
    account_trace; destruct o; reflexivity.
Qed.

Lemma list_ascii_of_string_append (a b : string) :
  list_ascii_of_string (String.append a b)
    = (list_ascii_of_string a ++ list_ascii_of_string b)%list.
Proof.
  induction a as [|c a IH]; [reflexivity|].
  change (list_ascii_of_string (String.append (String c a) b))
    with (c :: list_ascii_of_string (String.append a b)).
  rewrite IH. reflexivity.
Qed.

(** X10: in an implementation object that construction returns, the
    enablement is bound to the handle of the object's own session and to
    the identity [GetProviderId] reports, and that identity is the one the
    construction registered and enabled. *)
Theorem Impl_ctor_binds (v : Variant) (sessionName outputFolder : string)
    (bufferSize : Z) (P : Platform) (t t' : Trace) (self : Impl) :
  Impl_ctor v sessionName outputFolder bufferSize P t = (Returned self, t') ->
  SessionHandle (m_enabledProvider self) = Session_Handle (m_session self) /\
  EnabledProviderId (m_enabledProvider self) = Impl_GetProviderId self /\
  exists made,
    t' = (t ++ made)%list /\
    In (EventRegister (Impl_GetProviderId self)) made /\
    In (enable_call (Session_Handle (m_session self))
          (Impl_GetProviderId self)) made.
Proof.
  intros Hr. apply Impl_ctor_returned in Hr.
  destruct Hr
    as (made & -> & (sid & blk & rest & _ & _ & Hmade) & Hh & Hid & _).
  split; [exact Hh|]. split; [exact Hid|].
  exists made. split; [reflexivity|]. unfold Impl_GetProviderId.
  rewrite Hmade. destruct v; cbn [app]; split;
    repeat (first [left; reflexivity | right]);
    apply in_or_app; right; cbn; auto.
Qed.

(** X11: the order of the calls of a construction that returns.  In
    src/Log/MiniEtwLog.h the provider is registered before the session is
    started and the provider enabled; in part_000 the session is started
    and the provider enabled before the provider is registered.  The
    session is started by one call, or by a start, a stop and a start. *)
Theorem Impl_ctor_order (v : Variant) (sessionName outputFolder : string)
    (bufferSize : Z) (P : Platform) (t t' : Trace) (self : Impl) :
  Impl_ctor v sessionName outputFolder bufferSize P t = (Returned self, t') ->
  exists made starts,
    t' = (t ++ made)%list /\
    (starts = ["StartTraceA"]%string \/
     starts = ["StartTraceA"; "ControlTraceA"; "StartTraceA"]%string) /\
    map call_name made =
      match v with
      | MiniEtwLog_h =>
          ["CoCreateGuid"; "EventRegister"; "create_directories"]%string
            ++ starts ++ ["EnableTraceEx2(enable)"%string]
      | part_000_a | part_000_b =>
          ["CoCreateGuid"; "CoCreateGuid"]%string
            ++ starts
            ++ ["EnableTraceEx2(enable)"; "EventRegister"]%string
      end%list.
Proof.
  intros Hr. apply Impl_ctor_returned in Hr.
  destruct Hr as (made & -> & (sid & blk & rest & _ & Hrest & Hmade) & _).
  exists made, ("StartTraceA"%string :: map call_name rest).
  split; [reflexivity|]. split.
  - destruct Hrest as [-> | ->]; [left | right]; reflexivity.
  - rewrite Hmade.
    destruct v; cbn [app]; rewrite !map_cons, map_app; reflexivity.
Qed.

(** X12: a construction that returns has started its session under the
    zero-terminated session name with a control block whose path region
    reads back as the output folder followed by [\log.etl], when that
    path has no terminator inside and is shorter than the region. *)
Theorem Impl_ctor_log_file (v : Variant) (sessionName outputFolder : string)
    (bufferSize : Z) (P : Platform) (t t' : Trace) (self : Impl) :
  Impl_ctor v sessionName outputFolder bufferSize P t = (Returned self, t') ->
  (String.length (String.append outputFolder "\log.etl")
     < LogFilePath_extent)%nat ->
  no_NUL outputFolder = true ->
  exists made blk,
    t' = (t ++ made)%list /\
    In (StartTraceA 0 (c_str sessionName) blk) made /\
    read_c_string (LogFilePath blk) = String.append outputFolder "\log.etl".
Proof.
  intros Hr Hlen Hnul. apply Impl_ctor_returned in Hr.
  destruct Hr as (made & -> & (sid & blk & rest & Hb & _ & Hmade) & _).
  exists made, blk. split; [reflexivity|]. split.
  - rewrite Hmade. destruct v; cbn; auto.
  - apply (packed_path_read _ _ _ _ _ Hb Hlen).
    unfold no_NUL in *.
    rewrite list_ascii_of_string_append, forallb_app, Hnul. reflexivity.
Qed.

(** X13: a construction that throws leaves open nothing that was not open
    before: whatever it had acquired it has handed back. *)
Theorem construction_failure_releases (v : Variant)
    (sessionName outputFolder : string) (bufferSize : Z) (P : Platform)
    (t t' : Trace) (e : system_error) :
  MiniLog_ctor v sessionName outputFolder bufferSize P t = (Thrown e, t') ->
  opened P t' = opened P t.
Proof.
  unfold MiniLog_ctor, bind.
  destruct (Impl_ctor v sessionName outputFolder bufferSize P t)
    as [[self|e'| | |] t1] eqn:Hc; intros H; inversion H; subst.
  exact (Impl_ctor_thrown _ _ _ _ _ _ _ _ Hc).
Qed.

(** X14: a construction that returns leaves open, beyond what was open
    before, exactly the registration, the session and the enablement the
    new object holds. *)
Theorem construction_holds (v : Variant) (sessionName outputFolder : string)
    (bufferSize : Z) (P : Platform) (t t' : Trace) (self : Impl) :
  MiniLog_ctor v sessionName outputFolder bufferSize P t
    = (Returned {| m_impl := Some self |}, t') ->
  opened P t' = holding self (opened P t).
Proof.
  unfold MiniLog_ctor, bind.
  destruct (Impl_ctor v sessionName outputFolder bufferSize P t)
    as [[self'|e'| | |] t1] eqn:Hc; intros H; inversion H; subst.
  apply Impl_ctor_returned in Hc.
  destruct Hc as (made & -> & _ & _ & _ & Hopen). exact Hopen.
Qed.


(** X16: the scope of the test program that constructs a logger, emits
    once and destroys the logger leaves open nothing that was not open
    before, whether it completes or ends with an exception, whatever the
    platform answers. *)
Theorem logger_scope_leaves_nothing_open (v : Variant)
    (sessionName outputFolder : string) (bufferSize : Z) (message : span)
    (P : Platform) (t : Trace) :
  let r := logger_scope v sessionName outputFolder bufferSize message P t in
  (fst r = Returned tt \/ exists e, fst r = Thrown e) ->
  opened P (snd r) = opened P t.
Proof.
  cbv zeta.
  unfold logger_scope, MiniLog_ctor, bind, unwinding, MiniLog_call,
    MiniLog_dtor, ret.
  destruct (Impl_ctor v sessionName outputFolder bufferSize P t)
    as [[self|e'| | |] t1] eqn:Hc; cbn [m_impl].
  - assert (Hend :
      opened P (snd (Impl_dtor v self P (t1 ++ [write_call self message])))
        = opened P t).
    { apply Impl_dtor_account.
      rewrite opened_snoc. cbn [account write_call].
      apply Impl_ctor_returned in Hc.
      destruct Hc as (made & -> & _ & _ & _ & Hopen). exact Hopen. }
    rewrite Write_run.
    destruct (result (respond P t1 (write_call self message)) =? 0);
      cbn [snd]; [|intros _; exact Hend].
    destruct v; cbn [passed fst snd].
    2: intros [H|[e H]]; discriminate H.
    all: intros _;
      destruct (Impl_dtor _ self P (t1 ++ [write_call self message]));
      exact Hend.
  - intros _. cbn [snd]. exact (Impl_ctor_thrown _ _ _ _ _ _ _ _ Hc).
  - cbn [fst]. intros [H|[e H]]; discriminate H.
  - cbn [fst]. intros [H|[e H]]; discriminate H.
  - cbn [fst]. intros [H|[e H]]; discriminate H.
Qed.

Lemma Impl_ctor_binds_witness :
  exists self t',
    Impl_ctor part_000_b "Mini logger" "out" 4 quiet_platform []
      = (Returned self, t') /\
    Impl_GetProviderId self = 2 /\
    EnabledProviderId (m_enabledProvider self) = Impl_GetProviderId self /\
    In (EventRegister 2) t'.
Proof.
  destruct (Impl_ctor_binds part_000_b "Mini logger" "out" 4 quiet_platform
              [] _ _ eq_refl) as (_ & Hid & made & Ht & Hreg & _).
  cbn [app] in Ht. subst made.
  do 2 eexists. split; [vm_compute; reflexivity|].
  split; [reflexivity|]. split; [exact Hid | exact Hreg].
Defined.

Lemma Impl_ctor_order_witness :
  exists self t',
    Impl_ctor MiniEtwLog_h "Mini logger" "out" 4 stale_platform []
      = (Returned self, t') /\
    map call_name t' =
      ["CoCreateGuid"; "EventRegister"; "create_directories"; "StartTraceA";
       "ControlTraceA"; "StartTraceA"; "EnableTraceEx2(enable)"]%string.
Proof.
  destruct (Impl_ctor_order MiniEtwLog_h "Mini logger" "out" 4 stale_platform
              [] _ _ eq_refl) as (made & starts & Ht & Hstarts & Hmap).
  cbn [app] in Ht. subst made.
  do 2 eexists. split; [vm_compute; reflexivity|].
  destruct Hstarts as [-> | ->].
  - vm_compute in Hmap. discriminate Hmap.
  - exact Hmap.
Defined.

Lemma Impl_ctor_log_file_witness :
  exists self t' blk,
    Impl_ctor MiniEtwLog_h "Mini logger" "out" 4 quiet_platform []
      = (Returned self, t') /\
    In (StartTraceA 0 "Mini logger" blk) t' /\
    read_c_string (LogFilePath blk) = "out\log.etl"%string.
Proof.
  destruct (Impl_ctor_log_file MiniEtwLog_h "Mini logger" "out" 4
              quiet_platform [] _ _ eq_refl)
    as (made & blk & Ht & Hin & Hread).
  - vm_compute. lia.
  - reflexivity.
  - cbn [app] in Ht. subst made.
    do 2 eexists. exists blk. split; [vm_compute; reflexivity|].
    split; [exact Hin | exact Hread].
Defined.

Lemma construction_failure_releases_witness :
  exists e t',
    MiniLog_ctor MiniEtwLog_h "Mini logger" "out" 4 deaf_platform []
      = (Thrown e, t') /\
    map call_name t' =
      ["CoCreateGuid"; "EventRegister"; "create_directories"; "StartTraceA";
       "EnableTraceEx2(enable)"; "ControlTraceA"; "EventUnregister"]%string /\
    opened deaf_platform t' = nothing_open.
Proof.
  do 2 eexists. split; [vm_compute; reflexivity|].
  split; [reflexivity|].
  apply (construction_failure_releases MiniEtwLog_h "Mini logger" "out" 4
           deaf_platform [] _ _ eq_refl).
Defined.

Lemma construction_holds_witness :
  exists self t',
    MiniLog_ctor part_000_b "Mini logger" "out" 4 quiet_platform []
      = (Returned {| m_impl := Some self |}, t') /\
    opened quiet_platform t' =
      {| registrations := [5]; sessions := [3]; enablements := [(3, 2)] |}.
Proof.
  do 2 eexists. split; [vm_compute; reflexivity|].
  apply (construction_holds part_000_b "Mini logger" "out" 4 quiet_platform
           [] _ _ eq_refl).
Defined.


Lemma logger_scope_leaves_nothing_open_witness :
  opened stale_platform
    (snd (logger_scope part_000_b "Mini logger" "out" 4
            {| span_data := 4096; span_size := 13 |} stale_platform []))
    = nothing_open.
Proof.
  apply (logger_scope_leaves_nothing_open part_000_b "Mini logger" "out" 4
           {| span_data := 4096; span_size := 13 |} stale_platform []).
  left. vm_compute. reflexivity.
Defined.

(** ** The emit loop *)

(** The emits through loggers whose calls all succeed go through, in
    MiniEtwLog.h and in the second implementation of part_000. *)
Lemma emit_each_app (v : Variant) (before rest : list Impl) (message : span)
    (P : Platform) (t : Trace) :
  v <> part_000_a ->
  (forall b1 self b2, before = (b1 ++ self :: b2)%list ->
     result (respond P
               (t ++ map (fun self => write_call self message) b1)
               (write_call self message)) = ERROR_SUCCESS) ->
  emit_each v (map live (before ++ rest)) message P t =
    emit_each v (map live rest) message P
      (t ++ map (fun self => write_call self message) before).
Proof.
  intros Hv. revert t. induction before as [|s before IH]; intros t Hok.
  - cbn [app map]. rewrite app_nil_r. reflexivity.
  - cbn [app map emit_each]. unfold bind at 1. unfold MiniLog_call.
    change (m_impl (live s)) with (Some s). cbv beta iota.
    rewrite Write_run.
    pose proof (Hok [] s before eq_refl) as H0.
    cbn [map] in H0. rewrite app_nil_r in H0. rewrite H0.
    change (ERROR_SUCCESS =? 0) with true. cbv beta iota.
    assert (Hp : passed v tt = Returned tt)
      by (destruct v; [reflexivity|contradiction|reflexivity]).
    rewrite Hp.
    rewrite IH.
    + rewrite <- app_assoc. reflexivity.
    + intros b1 self b2 Hsplit.
      rewrite <- app_assoc.
      apply (Hok (s :: b1) self b2). rewrite Hsplit. reflexivity.
Qed.

(** X17: the loop that emits one message through each logger of a vector,
    in MiniEtwLog.h and in the second implementation of part_000.  As long
    as the write calls are answered with success the loop goes on: it
    issues the write calls of the loggers in the order of the vector, each
    through the registration handle of its own logger and with the same
    data block, and completes after the last one.  The first write call
    answered with anything else is the last call of the loop, which
    throws the verifier's failure for that answer; the loggers behind it
    are not reached. *)
Theorem emit_each_calls (v : Variant) (before after : list Impl)
    (message : span) (P : Platform) (t : Trace) :
  let W := fun self => write_call self message in
  v <> part_000_a ->
  (forall b1 self b2, before = (b1 ++ self :: b2)%list ->
     result (respond P (t ++ map W b1) (W self)) = ERROR_SUCCESS) ->
  emit_each v (map live before) message P t
    = (Returned tt, (t ++ map W before)%list) /\
  (forall self,
     let failed := result (respond P (t ++ map W before) (W self)) in
     failed <> ERROR_SUCCESS ->
     emit_each v (map live (before ++ self :: after)) message P t
       = (Thrown (make_system_error P failed "EventWrite"),
          (t ++ map W before ++ [W self])%list)).
Proof.
  intros W Hv Hok. split.
  - rewrite <- (app_nil_r before) at 1.
    rewrite (emit_each_app v before [] message P t Hv Hok). reflexivity.
  - intros self failed Hfail.
    rewrite (emit_each_app v before (self :: after) message P t Hv Hok).
    cbn [map emit_each]. unfold bind, MiniLog_call.
    change (m_impl (live self)) with (Some self). cbv beta iota.
    rewrite Write_run. subst failed W. cbv beta in *.
    destruct (Z.eqb_spec
                (result
                   (respond P
                      (t ++ map (fun self => write_call self message) before)
                      (write_call self message))) 0) as [H0|_];
      [contradiction|].
    rewrite <- app_assoc. reflexivity.
Qed.

Lemma emit_each_calls_witness :
  emit_each MiniEtwLog_h (map live [sample_impl]) sample_message
    one_write_platform []
    = (Returned tt, [write_call sample_impl sample_message]) /\
  emit_each MiniEtwLog_h (map live [sample_impl; sample_impl; sample_impl])
    sample_message one_write_platform []
    = (Thrown {| code := 8; what_arg := "EventWrite" |},
       [write_call sample_impl sample_message;
        write_call sample_impl sample_message]).
Proof.
  destruct (emit_each_calls MiniEtwLog_h [sample_impl] [sample_impl]
              sample_message one_write_platform []) as [Hall Hstop].
  - discriminate.
  - intros [|s1 [|s2 b1]] self b2 Hsplit; [|discriminate Hsplit..].
    reflexivity.
  - split; [exact Hall|].
    apply (Hstop sample_impl). vm_compute. discriminate.
Defined.

(** ** Assigning a facade to itself *)

(** X18: move-assigning a facade to itself changes nothing: the store of
    objects is as before, the facade keeps its implementation, and no
    platform call is made. *)
Theorem MiniLog_move_assign_self_unchanged (objs : gmap nat MiniLog)
    (self : nat) (o : MiniLog) (P : Platform) (t : Trace) :
  objs !! self = Some o ->
  MiniLog_move_assign objs self self P t = (Returned objs, t).
Proof.
  intros Ho. rewrite (MiniLog_move_assign_self objs self o P t Ho).
  rewrite (insert_id objs self o Ho). reflexivity.
Qed.

Lemma MiniLog_move_assign_self_unchanged_witness :
  MiniLog_move_assign two_facades 0 0 quiet_platform []
    = (Returned two_facades, []).
Proof.
  apply (MiniLog_move_assign_self_unchanged two_facades 0
           {| m_impl := Some sample_impl |} quiet_platform []).
  reflexivity.
Defined.

(** ** The consumer *)

Lemma fold_handler_callback (sel : Selection) (records : list EVENT_RECORD)
    (results : list (list ascii)) :
  fold_left (handler_callback sel) records results =
    (results ++ map UserData (List.filter (selected sel) records))%list.
Proof.
  revert results. induction records as [|evt records IH]; intros results.
  - cbn. rewrite app_nil_r. reflexivity.
  - cbn [fold_left List.filter]. rewrite IH. unfold handler_callback.
    destruct (selected sel evt).
    + cbn [map]. rewrite <- app_assoc. reflexivity.
    + reflexivity.
Qed.

(** X19: what [ReadRecords] does.  With an invalid handle from
    [OpenTraceA] it throws [invalid_argument] and calls neither
    [ProcessTrace] nor [CloseTrace].  With a valid handle it calls
    [ProcessTrace] once.  When the status is not [ERROR_SUCCESS] it closes
    the trace and throws the verifier's failure.  When the status is
    [ERROR_SUCCESS], the consumers of part_001 and part_002 built with the
    verifier of MiniEtwLog.h or of the second implementation of part_000
    close the trace and return the payloads of the selected records, in
    the order of the file and unchanged; in the consumer that selects by
    provider, and in one built with the first implementation of part_000,
    the verifier declared [noreturn] returns, which is undefined. *)
Theorem ReadRecords_spec (v : Variant) (sel : Selection) (file : string)
    (C : TracePlatform) (P : Platform) :
  let h := open_trace C file in
  let st := to_ULONG (process_status C h) in
  let opening := [GetSystemTime; SystemTimeToFileTime; OpenTraceA file] in
  ReadRecords v sel file C P =
    if h =? INVALID_PROCESSTRACE_HANDLE
    then (Raised (invalid_argument "Trace is invalid"), opening)
    else if st =? ERROR_SUCCESS
         then match sel, v with
              | SkipMetadata, (MiniEtwLog_h | part_000_b) =>
                  (Records (map UserData
                              (List.filter (selected sel)
                                 (trace_records C h))),
                   (opening ++ [ProcessTrace h; CloseTrace h])%list)
              | _, _ => (ReadUndefined, (opening ++ [ProcessTrace h])%list)
              end
         else (Raised (system_error_thrown
                         (make_system_error P st "ProcessTrace")),
               (opening ++ [ProcessTrace h; CloseTrace h])%list).
Proof.
  cbv zeta. unfold ReadRecords, AutoTraceHandle_ctor.
  destruct (open_trace C file =? INVALID_PROCESSTRACE_HANDLE);
    [reflexivity|].
  change (to_ULONG (process_status C (open_trace C file)))
    with (result (answer (process_status C (open_trace C file)) 0)).
  rewrite VerifyHResult_result. cbn [fst]. unfold ERROR_SUCCESS.
  destruct (result (answer (process_status C (open_trace C file)) 0) =? 0);
    [|reflexivity].
  rewrite fold_handler_callback.
  destruct sel as [providerId|]; [reflexivity|].
  destruct v; reflexivity.
Qed.

(** X20: the records kept for one provider are among those kept when only
    the metadata records are skipped, in the same order, for every
    provider other than the metadata provider; the two selections agree
    on a file whose other records all come from that provider. *)
Theorem selection_by_provider (providerId : GUID)
    (records : list EVENT_RECORD) :
  providerId <> EventTraceGuid ->
  List.filter (selected (ByProvider providerId)) records =
    List.filter (selected (ByProvider providerId))
      (List.filter (selected SkipMetadata) records) /\
  (Forall (fun evt => ProviderId evt = providerId \/
                      ProviderId evt = EventTraceGuid) records ->
   List.filter (selected (ByProvider providerId)) records =
     List.filter (selected SkipMetadata) records).
Proof.
  intros Hne. split.
  - induction records as [|evt records IH]; [reflexivity|].
    cbn [List.filter selected].
    destruct (Z.eqb_spec providerId (ProviderId evt)) as [Heq|Hd].
    + destruct (Z.eqb_spec (ProviderId evt) EventTraceGuid) as [He|_].
      * congruence.
      * cbn [negb List.filter selected]. rewrite <- Heq, Z.eqb_refl, IH.
        rewrite Heq. reflexivity.
    + destruct (ProviderId evt =? EventTraceGuid); cbn [negb]; [exact IH|].
      cbn [List.filter selected].
      destruct (Z.eqb_spec providerId (ProviderId evt)); [contradiction|].
      exact IH.
  - intros Hall. induction Hall as [|evt records Hevt Hall IH];
      [reflexivity|].
    cbn [List.filter selected]. rewrite IH.
    destruct Hevt as [Hp|Hm]; rewrite ?Hp, ?Hm.
    + rewrite Z.eqb_refl.
      destruct (Z.eqb_spec providerId EventTraceGuid); [contradiction|].
      reflexivity.
    + rewrite Z.eqb_refl.
      destruct (Z.eqb_spec providerId EventTraceGuid); [contradiction|].
      reflexivity.
Qed.

Lemma selection_by_provider_witness :
  List.filter (selected (ByProvider 2))
    [{| ProviderId := EventTraceGuid; UserData := [] |};
     {| ProviderId := 2; UserData := list_ascii_of_string "Hello World!" |}]
  = List.filter (selected SkipMetadata)
    [{| ProviderId := EventTraceGuid; UserData := [] |};
     {| ProviderId := 2; UserData := list_ascii_of_string "Hello World!" |}].
Proof.
  apply (selection_by_provider 2).
  - unfold EventTraceGuid. lia.
  - constructor; [right; reflexivity|].
    constructor; [left; reflexivity|]. constructor.
Defined.
